(** * ResNet-v2-50 feature extractor ([libs/networks/resnet.py])

    The module builds a TensorFlow graph.  Its functions take symbolic
    tensors and return symbolic tensors; the framework checks shapes while
    the graph is built and raises [ValueError] on a mismatch.  The
    development has three layers:

    - [graph]: the operations the framework records, one constructor per
      primitive the module calls, with every keyword argument it passes;
    - [Module tf] / [Module layers]: the primitives themselves, as
      functions on tensors that extend the graph, infer the static shape
      and raise on invalid operands.  TensorFlow and Keras are not part
      of the repository: the primitives follow their documented shape
      rules, on shapes whose dimensions are all known;
    - the module's functions, translated line by line into the error
      monad [result].

    The numbers stored in a tensor are floating point and are not
    modelled: two tensors are told apart by the graph that computes them
    and by their shape. *)

From Stdlib Require Import Ascii String.
From stdpp Require Import base numbers list strings pretty gmap.

Local Open Scope Z_scope.

(** ** Errors and the error monad *)

(** The framework primitives that can reject their operands. *)
Inductive primitive : Type :=
| prim_batch_normalization
| prim_ZeroPadding2D
| prim_Conv2D
| prim_MaxPool2D
| prim_add
| prim_identity.

(** Exceptions a call can end in: the framework's [ValueError], tagged
    with the primitive that raised it and the operand shapes it saw
    (none when a layer rejects its own arguments), and
    Python's own [IndexError] for a list subscript out of range. *)
Inductive exn : Type :=
| ValueError (raised_by : primitive) (operands : list (list Z))
| IndexError.

Inductive result (A : Type) : Type :=
| Ok (a : A)
| Raise (e : exn).
Arguments Ok {A} a.
Arguments Raise {A} e.

#[global] Instance result_ret : MRet result := fun _ a => Ok a.
#[global] Instance result_bind : MBind result := fun _ _ k m =>
  match m with
  | Ok a => k a
  | Raise e => Raise e
  end.

(** ** Tensors *)

Inductive data_format : Type := channels_last | channels_first.
Inductive padding_mode : Type := SAME | VALID.

(** A decimal literal [mantissa * 10 ^ exponent]; only stored, never
    computed with. *)
Record decimal : Type := Dec { mantissa : Z; exponent : Z }.

(** The operations recorded in the graph.  [Feed] stands for whatever
    produced the tensor handed to the module. *)
Inductive graph : Type :=
| Feed (name : string)
| FusedBatchNorm (axis : Z) (momentum epsilon : decimal)
    (center scale training fused : bool) (x : graph)
| Relu (x : graph)
| Pad (paddings : (Z * Z) * (Z * Z)) (df : data_format) (x : graph)
| Conv (filters kernel_size strides : Z) (padding : padding_mode)
    (use_bias : bool) (kernel_initializer : string) (df : data_format)
    (x : graph)
| MaxPool (pool_size strides : Z) (padding : padding_mode)
    (df : data_format) (x : graph)
| AddV2 (x y : graph)
| IdentityOp (x : graph) (name : string).

(** A symbolic tensor: the operation that produces it and its static
    shape (all dimensions known). *)
Record tensor : Type := Tensor { op : graph; shape : list Z }.

(** [batch, height, width, channels] of a rank-4 shape, read according to
    the data format; [None] for any other rank. *)
Definition image_dims (df : data_format) (s : list Z)
  : option (Z * Z * Z * Z) :=
  match df, s with
  | channels_last, [n; h; w; c] => Some (n, h, w, c)
  | channels_first, [n; c; h; w] => Some (n, h, w, c)
  | _, _ => None
  end.

Definition image_shape (df : data_format) (n h w c : Z) : list Z :=
  match df with
  | channels_last => [n; h; w; c]
  | channels_first => [n; c; h; w]
  end.

(** Ceiling of [n / s] for positive [s]. *)
Definition ceil_div (n s : Z) : Z := (n + s - 1) / s.

(** Output extent of a windowed operation along one spatial axis
    (Keras [conv_output_length]): [SAME] keeps [ceil (n / s)] positions,
    [VALID] keeps the windows that fit and rejects an input shorter than
    the window. *)
Definition conv_output_length (n k : Z) (p : padding_mode) (s : Z)
  : option Z :=
  match p with
  | SAME => Some (ceil_div n s)
  | VALID => if n <? k then None else Some ((n - k) / s + 1)
  end.

(** NumPy broadcasting of two shapes, innermost dimension first. *)
Fixpoint broadcast_rev (a b : list Z) : option (list Z) :=
  match a, b with
  | [], _ => Some b
  | _, [] => Some a
  | x :: a', y :: b' =>
      if x =? y then cons x <$> broadcast_rev a' b'
      else if x =? 1 then cons y <$> broadcast_rev a' b'
      else if y =? 1 then cons x <$> broadcast_rev a' b'
      else None
  end.

Definition broadcast (a b : list Z) : option (list Z) :=
  reverse <$> broadcast_rev (reverse a) (reverse b).

(** The names the framework accepts for an operation created outside
    any name scope: they match [[A-Za-z0-9.][A-Za-z0-9_.\-/]*], which
    excludes the empty name.  The names [resnet_v2] passes inside its
    variable scope are of this form. *)
Definition is_alnum (c : ascii) : bool :=
  let n := Z.of_N (N_of_ascii c) in
  ((48 <=? n) && (n <=? 57)) || ((65 <=? n) && (n <=? 90)) ||
  ((97 <=? n) && (n <=? 122)).

Definition op_name_head (c : ascii) : bool :=
  is_alnum c || bool_decide (c = "."%char).

Definition op_name_tail (c : ascii) : bool :=
  is_alnum c || bool_decide (c = "_"%char) || bool_decide (c = "."%char) ||
  bool_decide (c = "-"%char) || bool_decide (c = "/"%char).

Fixpoint all_chars (P : ascii → bool) (s : string) : bool :=
  match s with
  | EmptyString => true
  | String c s' => P c && all_chars P s'
  end.

Definition valid_op_name (name : string) : bool :=
  match name with
  | EmptyString => false
  | String c rest => op_name_head c && all_chars op_name_tail rest
  end.

(** ** The framework primitives the module calls *)

Module tf.

(** [tf.layers.batch_normalization]: [axis] must name a dimension of
    the input; the shape is unchanged.  On an input whose rank is not 4
    the layer does not use the fused kernel that [fused=True] asks for,
    and returns all the same. *)
Definition layers_batch_normalization (inputs : tensor) (axis : Z)
    (momentum epsilon : decimal) (center scale training fused : bool)
  : result tensor :=
  if (0 <=? axis) && (axis <? Z.of_nat (length (shape inputs)))
  then Ok (Tensor (FusedBatchNorm axis momentum epsilon center scale
                     training fused (op inputs))
             (shape inputs))
  else Raise (ValueError prim_batch_normalization [shape inputs]).

(** [tf.identity(x, name)]: the shape is unchanged; a [name] that is
    not a valid operation name is rejected. *)
Definition identity (x : tensor) (name : string) : result tensor :=
  if valid_op_name name
  then Ok (Tensor (IdentityOp (op x) name) (shape x))
  else Raise (ValueError prim_identity [shape x]).

(** [x + y] on tensors. *)
Definition add (x y : tensor) : result tensor :=
  match broadcast (shape x) (shape y) with
  | Some s => Ok (Tensor (AddV2 (op x) (op y)) s)
  | None => Raise (ValueError prim_add [shape x; shape y])
  end.

End tf.

Module layers.

(** [ZeroPadding2D((a, b), data_format)(x)]: a tuple of two ints is
    (symmetric height pad, symmetric width pad), normalised to
    ((top, bottom), (left, right)) = ((a, a), (b, b)). *)
Definition ZeroPadding2D (padding : Z * Z) (df : data_format)
    (x : tensor) : result tensor :=
  let '(a, b) := padding in
  match image_dims df (shape x) with
  | Some (n, h, w, c) =>
      if (0 <=? a) && (0 <=? b)
      then Ok (Tensor (Pad ((a, a), (b, b)) df (op x))
                 (image_shape df n (h + a + a) (w + b + b) c))
      else Raise (ValueError prim_ZeroPadding2D [shape x])
  | None => Raise (ValueError prim_ZeroPadding2D [shape x])
  end.

(** [Conv2D(filters, kernel_size, strides, padding, use_bias,
    kernel_initializer, data_format)(x)].  [filters], [kernel_size] and
    [strides] below 1 are rejected whatever the input is; the call
    rejects an input that is not of rank 4, has no channel, or is
    smaller than the window of a [VALID] convolution. *)
Definition Conv2D (filters kernel_size strides : Z)
    (padding : padding_mode) (use_bias : bool)
    (kernel_initializer : string) (df : data_format) (x : tensor)
  : result tensor :=
  if (1 <=? filters) && (1 <=? kernel_size) && (1 <=? strides)
  then
    match image_dims df (shape x) with
    | Some (n, h, w, c) =>
        if 1 <=? c
        then
          match conv_output_length h kernel_size padding strides,
                conv_output_length w kernel_size padding strides with
          | Some h', Some w' =>
              Ok (Tensor (Conv filters kernel_size strides padding use_bias
                            kernel_initializer df (op x))
                    (image_shape df n h' w' filters))
          | _, _ => Raise (ValueError prim_Conv2D [shape x])
          end
        else Raise (ValueError prim_Conv2D [shape x])
    | None => Raise (ValueError prim_Conv2D [shape x])
    end
  else Raise (ValueError prim_Conv2D []).

(** [MaxPool2D(pool_size, strides, padding, data_format)(x)]. *)
Definition MaxPool2D (pool_size strides : Z) (padding : padding_mode)
    (df : data_format) (x : tensor) : result tensor :=
  match image_dims df (shape x) with
  | Some (n, h, w, c) =>
      if (1 <=? pool_size) && (1 <=? strides)
      then
        match conv_output_length h pool_size padding strides,
              conv_output_length w pool_size padding strides with
        | Some h', Some w' =>
            Ok (Tensor (MaxPool pool_size strides padding df (op x))
                  (image_shape df n h' w' c))
        | _, _ => Raise (ValueError prim_MaxPool2D [shape x])
        end
      else Raise (ValueError prim_MaxPool2D [shape x])
  | None => Raise (ValueError prim_MaxPool2D [shape x])
  end.

(** [ReLU()(x)]. *)
Definition ReLU (x : tensor) : tensor := Tensor (Relu (op x)) (shape x).

End layers.

(** ** The module *)

Definition _BATCH_NORM_DECAY : decimal := Dec 997 (-3).
Definition _BATCH_NORM_EPSILON : decimal := Dec 1 (-5).

Definition batch_norm (inputs : tensor) (training : bool)
    (data_format : data_format) : result tensor :=
  tf.layers_batch_normalization inputs
    (match data_format with channels_first => 1 | channels_last => 3 end)
    _BATCH_NORM_DECAY _BATCH_NORM_EPSILON true true training true.

Definition fixed_padding (inputs : tensor) (kernel_size : Z)
    (data_format : data_format) : result tensor :=
  let pad_total := kernel_size - 1 in
  let pad_beg := pad_total / 2 in
  let pad_end := pad_total - pad_beg in
  padded_inputs ← layers.ZeroPadding2D (pad_beg, pad_end) data_format inputs;
  mret padded_inputs.

Definition conv2d_fixed_padding (inputs : tensor)
    (filters kernel_size strides : Z) (data_format : data_format)
  : result tensor :=
  inputs ← (if 1 <? strides
            then fixed_padding inputs kernel_size data_format
            else mret inputs);
  layers.Conv2D filters kernel_size strides
    (if strides =? 1 then SAME else VALID) false "he_uniform"
    data_format inputs.

Definition _building_block_v2 (inputs : tensor) (filters : Z)
    (training : bool) (projection_shortcut : option (tensor → result tensor))
    (strides : Z) (data_format : data_format) : result tensor :=
  let shortcut := inputs in
  inputs ← batch_norm inputs training data_format;
  let inputs := layers.ReLU inputs in
  shortcut ← match projection_shortcut with
             | Some projection_shortcut => projection_shortcut inputs
             | None => mret shortcut
             end;
  inputs ← conv2d_fixed_padding inputs filters 3 strides data_format;
  inputs ← batch_norm inputs training data_format;
  let inputs := layers.ReLU inputs in
  inputs ← conv2d_fixed_padding inputs filters 3 1 data_format;
  tf.add inputs shortcut.

Definition _bottleneck_block_v2 (inputs : tensor) (filters : Z)
    (training : bool) (projection_shortcut : option (tensor → result tensor))
    (strides : Z) (data_format : data_format) : result tensor :=
  let shortcut := inputs in
  inputs ← batch_norm inputs training data_format;
  let inputs := layers.ReLU inputs in
  shortcut ← match projection_shortcut with
             | Some projection_shortcut => projection_shortcut inputs
             | None => mret shortcut
             end;
  inputs ← conv2d_fixed_padding inputs filters 1 1 data_format;
  inputs ← batch_norm inputs training data_format;
  let inputs := layers.ReLU inputs in
  inputs ← conv2d_fixed_padding inputs filters 3 strides data_format;
  inputs ← batch_norm inputs training data_format;
  let inputs := layers.ReLU inputs in
  inputs ← conv2d_fixed_padding inputs (4 * filters) 1 1 data_format;
  tf.add inputs shortcut.

(** The type of [block_fn]. *)
Definition block_fn_t : Type :=
  tensor → Z → bool → option (tensor → result tensor) → Z → data_format →
  result tensor.

(** Python's [range(start, stop)]. *)
Definition range (start stop : Z) : list Z :=
  seqZ start (stop - start).

(** [for x in xs: acc = body(acc, x)] where the body may raise. *)
Fixpoint for_each {A B : Type} (xs : list B) (body : A → B → result A)
    (acc : A) : result A :=
  match xs with
  | [] => mret acc
  | x :: xs' => acc ← body acc x; for_each xs' body acc
  end.

Definition block_layer (inputs : tensor) (filters : Z) (bottleneck : bool)
    (block_fn : block_fn_t) (blocks strides : Z) (training : bool)
    (name : string) (data_format : data_format) : result tensor :=
  let filters_out := if bottleneck then filters * 4 else filters in
  let projection_shortcut := fun inputs =>
    conv2d_fixed_padding inputs filters_out 1 strides data_format in
  inputs ← block_fn inputs filters training (Some projection_shortcut)
             strides data_format;
  inputs ← for_each (range 1 blocks)
             (fun inputs _ =>
                block_fn inputs filters training None 1 data_format)
             inputs;
  tf.identity inputs name.

(** Python's [enumerate]. *)
Definition enumerate {A : Type} (xs : list A) : list (Z * A) :=
  zip (seqZ 0 (Z.of_nat (length xs))) xs.

(** [xs[i]] for a non-negative index. *)
Definition getitem {A : Type} (xs : list A) (i : Z) : result A :=
  match xs !! Z.to_nat i with
  | Some x => Ok x
  | None => Raise IndexError
  end.

(** [resnet_v2].  The [tf.variable_scope('resnet_model', reuse=reuse)]
    around the body only names the variables the layers create, so
    [reuse] has no counterpart here. *)
Definition resnet_v2 (inputs : tensor) (training : bool)
    (data_format : data_format) : result (gmap string tensor) :=
  inputs ← conv2d_fixed_padding inputs 64 7 2 data_format;
  inputs ← tf.identity inputs "initial_conv";
  inputs ← layers.MaxPool2D 3 2 SAME data_format inputs;
  inputs ← tf.identity inputs "initial_max_pool";
  let block_strides := [1; 2; 2; 2] in
  let image_feature_map : gmap string tensor := ∅ in
  '(inputs, image_feature_map) ←
    for_each (enumerate [3; 4; 6; 3])
      (fun '(inputs, image_feature_map) '(i, num_blocks) =>
         let num_filters := 64 * 2 ^ i in
         strides ← getitem block_strides i;
         inputs ← block_layer inputs num_filters true _bottleneck_block_v2
                    num_blocks strides training
                    ("block_layer" +:+ pretty (i + 1)) data_format;
         mret (inputs, <["C" +:+ pretty (i + 2) := inputs]> image_feature_map))
      (inputs, image_feature_map);
  mret image_feature_map.

(** A 64 x 64 RGB image, the running example. *)
Definition images : tensor := Tensor (Feed "images") [1; 64; 64; 3].

(** * Describing what was built

    The definitions below are not part of the module.  They name the
    graphs its functions are shown to build, and the observations made
    on graphs, tensors and exceptions in the statements that follow. *)

(** The operations one successful call of [conv2d_fixed_padding] adds on
    top of [g]. *)
Definition conv_ops (filters kernel_size strides : Z) (df : data_format)
    (g : graph) : graph :=
  if 1 <? strides
  then Conv filters kernel_size strides VALID false "he_uniform" df
         (Pad (((kernel_size - 1) / 2, (kernel_size - 1) / 2),
               (kernel_size - 1 - (kernel_size - 1) / 2,
                kernel_size - 1 - (kernel_size - 1) / 2)) df g)
  else Conv filters kernel_size strides SAME false "he_uniform" df g.

(** Batch normalisation followed by ReLU, as the blocks apply it. *)
Definition bn_relu (training : bool) (df : data_format) (g : graph) : graph :=
  Relu (FusedBatchNorm
          (match df with channels_first => 1 | channels_last => 3 end)
          _BATCH_NORM_DECAY _BATCH_NORM_EPSILON true true training true g).

(** The convolutional path of a building block over [g]. *)
Definition building_path (filters : Z) (training : bool) (strides : Z)
    (df : data_format) (g : graph) : graph :=
  conv_ops filters 3 1 df (bn_relu training df
    (conv_ops filters 3 strides df (bn_relu training df g))).

(** The convolutional path of a bottleneck block over [g]. *)
Definition bottleneck_path (filters : Z) (training : bool) (strides : Z)
    (df : data_format) (g : graph) : graph :=
  conv_ops (4 * filters) 1 1 df (bn_relu training df
    (conv_ops filters 3 strides df (bn_relu training df
      (conv_ops filters 1 1 df (bn_relu training df g))))).

(** A block with identity shortcut and stride 1 over [g]. *)
Definition identity_block (path : Z → bool → Z → data_format → graph → graph)
    (filters : Z) (training : bool) (df : data_format) (g : graph) : graph :=
  AddV2 (path filters training 1 df g) g.

(** A block whose shortcut is a 1x1 convolution with [filters_out]
    filters and the stage's stride, applied to the pre-activated input. *)
Definition projection_block
    (path : Z → bool → Z → data_format → graph → graph)
    (filters filters_out : Z) (training : bool) (strides : Z)
    (df : data_format) (g : graph) : graph :=
  AddV2 (path filters training strides df g)
        (conv_ops filters_out 1 strides df (bn_relu training df g)).

(** The graph of one stage over [g]: a projection block, then one
    identity block per further iteration of [range(1, blocks)], then the
    naming identity. *)
Definition stage_graph (path : Z → bool → Z → data_format → graph → graph)
    (filters filters_out blocks strides : Z) (training : bool)
    (name : string) (df : data_format) (g : graph) : graph :=
  IdentityOp
    (Nat.iter (Z.to_nat (blocks - 1)) (identity_block path filters training df)
       (projection_block path filters filters_out training strides df g))
    name.

(** The stem over [g]: strided 7x7 convolution and 3x3 max pooling, each
    followed by a naming identity. *)
Definition stem_graph (df : data_format) (g : graph) : graph :=
  IdentityOp
    (MaxPool 3 2 SAME df (IdentityOp (conv_ops 64 7 2 df g) "initial_conv"))
    "initial_max_pool".

(** The graphs of the four feature maps over the input graph [g]. *)
Definition C2_graph (tr : bool) (df : data_format) (g : graph) : graph :=
  stage_graph bottleneck_path 64 256 3 1 tr "block_layer1" df
    (stem_graph df g).
Definition C3_graph (tr : bool) (df : data_format) (g : graph) : graph :=
  stage_graph bottleneck_path 128 512 4 2 tr "block_layer2" df
    (C2_graph tr df g).
Definition C4_graph (tr : bool) (df : data_format) (g : graph) : graph :=
  stage_graph bottleneck_path 256 1024 6 2 tr "block_layer3" df
    (C3_graph tr df g).
Definition C5_graph (tr : bool) (df : data_format) (g : graph) : graph :=
  stage_graph bottleneck_path 512 2048 3 2 tr "block_layer4" df
    (C4_graph tr df g).

(** Spatial size and channel count of a tensor, read from its shape. *)
Definition spatial_size (df : data_format) (x : tensor) : option (Z * Z) :=
  '(_, h, w, _) ← image_dims df (shape x); Some (h, w).

Definition channels (df : data_format) (x : tensor) : option Z :=
  '(_, _, _, c) ← image_dims df (shape x); Some c.

(** The main path of a graph runs from its output to its input through
    the first operand of every addition, that is, through the
    convolutional path of every block.  [main_path_count P g] counts the
    operations on it that satisfy [P]. *)
Fixpoint main_path_count (P : graph → bool) (g : graph) : nat :=
  ((if P g then 1 else 0) +
   match g with
   | Feed _ => 0
   | FusedBatchNorm _ _ _ _ _ _ _ x
   | Relu x
   | Pad _ _ x
   | Conv _ _ _ _ _ _ _ x
   | MaxPool _ _ _ _ x
   | AddV2 x _
   | IdentityOp x _ => main_path_count P x
   end)%nat.

Definition is_add (g : graph) : bool :=
  match g with AddV2 _ _ => true | _ => false end.

Definition is_conv (g : graph) : bool :=
  match g with Conv _ _ _ _ _ _ _ _ => true | _ => false end.

(** [block_fn] builds blocks whose convolutional path is [path]: whenever
    it returns, the result is the sum of [path] over the input and of a
    shortcut, which is the input itself when no projection is given and
    otherwise the projection applied to the input after the first batch
    normalisation and ReLU. *)
Definition builds_blocks (block_fn : block_fn_t)
    (path : Z → bool → Z → data_format → graph → graph) : Prop :=
  ∀ x f tr proj s df y,
    block_fn x f tr proj s df = Ok y →
    ∃ a sh, batch_norm x tr df = Ok a ∧
            op (layers.ReLU a) = bn_relu tr df (op x) ∧
            match proj with
            | Some p => p (layers.ReLU a) = Ok sh
            | None => sh = x
            end ∧
            op y = AddV2 (path f tr s df (op x)) (op sh).

(** [first_raise e m K]: the call [m] is where the exception [e] is
    raised, or [m] returned and [K] holds of what it returned.  Nested,
    it follows a sequence of calls up to the one that raised. *)
Definition first_raise {A : Type} (e : exn) (m : result A) (K : A → Prop)
  : Prop :=
  m = Raise e ∨ ∃ a, m = Ok a ∧ K a.

(** A call that raises nothing but [ValueError]. *)
Definition raises_only_ValueError {A : Type} (r : result A) : Prop :=
  ∀ e, r = Raise e → ∃ p shapes, e = ValueError p shapes.

(** The graph [g] with the [training] attribute of every batch
    normalisation set to [b]. *)
Fixpoint with_training (b : bool) (g : graph) : graph :=
  match g with
  | Feed name => Feed name
  | FusedBatchNorm axis momentum epsilon center scale _ fused x =>
      FusedBatchNorm axis momentum epsilon center scale b fused
        (with_training b x)
  | Relu x => Relu (with_training b x)
  | Pad paddings df x => Pad paddings df (with_training b x)
  | Conv filters kernel_size strides padding use_bias kernel_initializer
      df x =>
      Conv filters kernel_size strides padding use_bias kernel_initializer
        df (with_training b x)
  | MaxPool pool_size strides padding df x =>
      MaxPool pool_size strides padding df (with_training b x)
  | AddV2 x y => AddV2 (with_training b x) (with_training b y)
  | IdentityOp x name => IdentityOp (with_training b x) name
  end.

(** What a call of [resnet_v2] returned or raised, with the [training]
    attributes of the returned graphs set to [False]. *)
Definition modulo_training (r : result (gmap string tensor))
  : result (gmap string tensor) :=
  match r with
  | Ok m => Ok ((λ t, Tensor (with_training false (op t)) (shape t)) <$> m)
  | Raise e => Raise e
  end.

(** * Properties *)

(** ** Running the module *)

Example stem_convolution_of_images :
  conv2d_fixed_padding images 64 7 2 channels_last =
  Ok (Tensor (Conv 64 7 2 VALID false "he_uniform" channels_last
                (Pad ((3, 3), (3, 3)) channels_last (Feed "images")))
        [1; 32; 32; 64]).
Proof. reflexivity. Qed.

Example unit_stride_convolution_of_images :
  conv2d_fixed_padding images 64 3 1 channels_last =
  Ok (Tensor (Conv 64 3 1 SAME false "he_uniform" channels_last
                (Feed "images"))
        [1; 64; 64; 64]).
Proof. reflexivity. Qed.

Example feature_shapes_of_images :
  match resnet_v2 images true channels_last with
  | Ok m => (λ k, shape <$> m !! k) <$> ["C2"; "C3"; "C4"; "C5"]
  | Raise _ => []
  end =
  [Some [1; 16; 16; 256]; Some [1; 8; 8; 512];
   Some [1; 4; 4; 1024]; Some [1; 2; 2; 2048]].
Proof. vm_compute. reflexivity. Qed.

Example feature_shapes_channels_first :
  match resnet_v2 (Tensor (Feed "images") [2; 3; 50; 75]) false
          channels_first with
  | Ok m => (λ k, shape <$> m !! k) <$> ["C2"; "C3"; "C4"; "C5"]
  | Raise _ => []
  end =
  [Some [2; 256; 13; 19]; Some [2; 512; 7; 10];
   Some [2; 1024; 4; 5]; Some [2; 2048; 2; 3]].
Proof. vm_compute. reflexivity. Qed.

Example rank_3_input_is_rejected :
  resnet_v2 (Tensor (Feed "images") [1; 64; 3]) true channels_last =
  Raise (ValueError prim_ZeroPadding2D [[1; 64; 3]]).
Proof. reflexivity. Qed.

Example empty_image_is_rejected :
  resnet_v2 (Tensor (Feed "images") [1; 0; 64; 3]) true channels_last =
  Raise (ValueError prim_Conv2D [[1; 6; 70; 3]]).
Proof. reflexivity. Qed.

Example identity_block_needs_matching_channels :
  _bottleneck_block_v2 images 64 true None 1 channels_last =
  Raise (ValueError prim_add [[1; 64; 64; 256]; [1; 64; 64; 3]]).
Proof. reflexivity. Qed.

(** ** The error monad *)

Lemma bind_Ok_inv {A B : Type} (m : result A) (k : A → result B) (b : B) :
  m ≫= k = Ok b → ∃ a, m = Ok a ∧ k a = Ok b.
Proof. intros H. destruct m as [a|e]; [eauto | discriminate H]. Qed.

Lemma bind_Raise_inv {A B : Type} (m : result A) (k : A → result B) (e : exn) :
  m ≫= k = Raise e → m = Raise e ∨ ∃ a, m = Ok a ∧ k a = Raise e.
Proof.
  intros H. destruct m as [a|e']; [right; eauto | left].
  injection H as ->. reflexivity.
Qed.


(** ** Shapes *)

Lemma image_dims_image_shape df n h w c :
  image_dims df (image_shape df n h w c) = Some (n, h, w, c).
Proof. destruct df; reflexivity. Qed.


Lemma image_shape_length df n h w c :
  length (image_shape df n h w c) = 4%nat.
Proof. destruct df; reflexivity. Qed.


(** [ceil_div n s] is the least [q] with [n <= q * s]. *)
Lemma ceil_div_spec n s :
  0 < s → (ceil_div n s - 1) * s < n ≤ ceil_div n s * s.
Proof.
  intros Hs. unfold ceil_div.
  pose proof (Z.div_mod (n + s - 1) s ltac:(lia)) as Hdm.
  pose proof (Z.mod_pos_bound (n + s - 1) s Hs). nia.
Qed.

Lemma ceil_div_unique n s q :
  0 < s → (q - 1) * s < n ≤ q * s → ceil_div n s = q.
Proof.
  intros Hs Hq. pose proof (ceil_div_spec n s Hs). nia.
Qed.

Lemma ceil_div_1 n : ceil_div n 1 = n.
Proof. apply ceil_div_unique; lia. Qed.

Lemma ceil_div_pred n s : 0 < s → (n - 1) / s + 1 = ceil_div n s.
Proof.
  intros Hs. unfold ceil_div.
  replace (n + s - 1) with (n - 1 + 1 * s) by lia.
  rewrite Z.div_add by lia. reflexivity.
Qed.

Lemma ceil_div_pos n s : 0 < s → 1 ≤ n → 1 ≤ ceil_div n s.
Proof. intros Hs Hn. pose proof (ceil_div_spec n s Hs). nia. Qed.

Lemma ceil_div_ceil_div n a b :
  0 < a → 0 < b → ceil_div (ceil_div n a) b = ceil_div n (a * b).
Proof.
  intros Ha Hb. apply ceil_div_unique; [assumption|].
  pose proof (ceil_div_spec n (a * b) ltac:(nia)).
  pose proof (ceil_div_spec n a Ha).
  nia.
Qed.

Lemma ceil_div_divide n s : 0 < s → (s | n) → ceil_div n s = n / s.
Proof.
  intros Hs [q ->]. rewrite Z.div_mul by lia.
  apply ceil_div_unique; lia.
Qed.

Lemma broadcast_rev_same s : broadcast_rev s s = Some s.
Proof.
  induction s as [|x s IH]; [reflexivity|].
  simpl. rewrite Z.eqb_refl, IH. reflexivity.
Qed.

Lemma broadcast_same s : broadcast s s = Some s.
Proof.
  unfold broadcast. rewrite broadcast_rev_same. simpl.
  by rewrite reverse_involutive.
Qed.

(** ** The primitives on image tensors *)

Section primitives.
Context (x : tensor) (df : data_format) (n h w c : Z).
Hypothesis Hx : shape x = image_shape df n h w c.

Lemma ZeroPadding2D_image a b :
  0 ≤ a → 0 ≤ b →
  layers.ZeroPadding2D (a, b) df x =
  Ok (Tensor (Pad ((a, a), (b, b)) df (op x))
        (image_shape df n (h + a + a) (w + b + b) c)).
Proof using Hx.
  intros Ha Hb. unfold layers.ZeroPadding2D.
  rewrite Hx, image_dims_image_shape.
  destruct (Z.leb_spec 0 a), (Z.leb_spec 0 b); try lia. reflexivity.
Qed.

Lemma Conv2D_image f k s p ub ki h' w' :
  1 ≤ k → 1 ≤ s → 1 ≤ f → 1 ≤ c →
  conv_output_length h k p s = Some h' →
  conv_output_length w k p s = Some w' →
  layers.Conv2D f k s p ub ki df x =
  Ok (Tensor (Conv f k s p ub ki df (op x)) (image_shape df n h' w' f)).
Proof using Hx.
  intros Hk Hs Hf Hc Hh Hw. unfold layers.Conv2D.
  rewrite Hx, image_dims_image_shape, Hh, Hw.
  destruct (Z.leb_spec 1 f), (Z.leb_spec 1 k), (Z.leb_spec 1 s),
    (Z.leb_spec 1 c); try lia.
  reflexivity.
Qed.

Lemma MaxPool2D_image k s p h' w' :
  1 ≤ k → 1 ≤ s →
  conv_output_length h k p s = Some h' →
  conv_output_length w k p s = Some w' →
  layers.MaxPool2D k s p df x =
  Ok (Tensor (MaxPool k s p df (op x)) (image_shape df n h' w' c)).
Proof using Hx.
  intros Hk Hs Hh Hw. unfold layers.MaxPool2D.
  rewrite Hx, image_dims_image_shape, Hh, Hw.
  destruct (Z.leb_spec 1 k), (Z.leb_spec 1 s); try lia. reflexivity.
Qed.

Lemma batch_norm_image training :
  batch_norm x training df =
  Ok (Tensor (FusedBatchNorm
                (match df with channels_first => 1 | channels_last => 3 end)
                _BATCH_NORM_DECAY _BATCH_NORM_EPSILON true true training
                true (op x))
        (image_shape df n h w c)).
Proof using Hx.
  unfold batch_norm, tf.layers_batch_normalization.
  rewrite Hx, image_shape_length. destruct df; reflexivity.
Qed.

Lemma add_image (y : tensor) :
  shape y = image_shape df n h w c →
  tf.add x y = Ok (Tensor (AddV2 (op x) (op y)) (image_shape df n h w c)).
Proof using Hx.
  intros Hy. unfold tf.add. rewrite Hx, Hy, broadcast_same. reflexivity.
Qed.

(** *** [fixed_padding] *)

Lemma fixed_padding_image k :
  1 ≤ k →
  fixed_padding x k df =
  Ok (Tensor (Pad (((k - 1) / 2, (k - 1) / 2),
                   (k - 1 - (k - 1) / 2, k - 1 - (k - 1) / 2)) df (op x))
        (image_shape df n (h + (k - 1) / 2 + (k - 1) / 2)
           (w + (k - 1 - (k - 1) / 2) + (k - 1 - (k - 1) / 2)) c)).
Proof using Hx.
  intros Hk. unfold fixed_padding.
  pose proof (Z.div_pos (k - 1) 2 ltac:(lia) ltac:(lia)) as Hbeg.
  assert (0 ≤ k - 1 - (k - 1) / 2) as Hend.
  { pose proof (Z.div_mod (k - 1) 2 ltac:(lia)).
    pose proof (Z.mod_pos_bound (k - 1) 2 ltac:(lia)). lia. }
  rewrite (ZeroPadding2D_image _ _ Hbeg Hend). reflexivity.
Qed.

End primitives.

Lemma odd_half k : Z.odd k = true → (k - 1) / 2 + (k - 1) / 2 = k - 1.
Proof.
  intros Hk. rewrite Z.odd_spec in Hk. destruct Hk as [q ->].
  replace (2 * q + 1 - 1) with (q * 2) by lia.
  rewrite Z.div_mul by lia. lia.
Qed.

Lemma even_half k : Z.even k = true → (k - 1) / 2 + (k - 1) / 2 = k - 2.
Proof.
  intros Hk. rewrite Z.even_spec in Hk. destruct Hk as [q ->].
  replace (2 * q - 1) with (1 + (q - 1) * 2) by lia.
  rewrite Z.div_add by lia. change (1 / 2) with 0. lia.
Qed.

(** ** C8 *)

(** C8. On an image tensor, [fixed_padding] with [kernel_size = 1] pads
    every border by zero and leaves the shape as it is; with an odd
    [kernel_size = k > 1] it pads each of the four borders by [(k-1)/2],
    so height and width both grow by [k-1]; with an even positive [k] the
    pair [(pad_beg, pad_end)] is taken as (height pad, width pad), both
    symmetric, so the height grows by [2*((k-1)//2) = k-2] and the width
    by [2*(k-1-(k-1)//2) = k]. *)
Theorem fixed_padding_borders (x : tensor) (df : data_format)
    (n h w c k : Z) :
  shape x = image_shape df n h w c →
  (k = 1 →
     fixed_padding x k df =
     Ok (Tensor (Pad ((0, 0), (0, 0)) df (op x)) (shape x))) ∧
  (1 < k → Z.odd k = true →
     fixed_padding x k df =
     Ok (Tensor (Pad (((k - 1) / 2, (k - 1) / 2),
                      ((k - 1) / 2, (k - 1) / 2)) df (op x))
           (image_shape df n (h + (k - 1)) (w + (k - 1)) c))) ∧
  (0 < k → Z.even k = true →
     fixed_padding x k df =
     Ok (Tensor (Pad (((k - 1) / 2, (k - 1) / 2),
                      (k - 1 - (k - 1) / 2, k - 1 - (k - 1) / 2)) df (op x))
           (image_shape df n (h + (k - 2)) (w + k) c)) ∧
     2 * ((k - 1) / 2) = k - 2 ∧
     2 * (k - 1 - (k - 1) / 2) = k).
Proof.
  intros Hx. split; [|split].
  - intros ->. rewrite (fixed_padding_image _ _ _ _ _ _ Hx) by lia.
    change ((1 - 1) / 2) with 0. change (1 - 1 - 0) with 0.
    rewrite Hx. do 3 f_equal; lia.
  - intros Hk Hodd. rewrite (fixed_padding_image _ _ _ _ _ _ Hx) by lia.
    pose proof (odd_half k Hodd) as Hhalf.
    replace (k - 1 - (k - 1) / 2) with ((k - 1) / 2) by lia.
    do 3 f_equal; lia.
  - intros Hk Heven. pose proof (even_half k Heven) as Hhalf.
    split; [|lia].
    rewrite (fixed_padding_image _ _ _ _ _ _ Hx) by lia.
    do 3 f_equal; lia.
Qed.

Lemma fixed_padding_borders_witness :
  fixed_padding images 1 channels_last =
    Ok (Tensor (Pad ((0, 0), (0, 0)) channels_last (Feed "images"))
          [1; 64; 64; 3]) ∧
  fixed_padding images 7 channels_last =
    Ok (Tensor (Pad ((3, 3), (3, 3)) channels_last (Feed "images"))
          [1; 70; 70; 3]) ∧
  fixed_padding images 4 channels_last =
    Ok (Tensor (Pad ((1, 1), (2, 2)) channels_last (Feed "images"))
          [1; 66; 68; 3]).
Proof.
  split; [|split].
  - exact (proj1 (fixed_padding_borders images channels_last 1 64 64 3 1
                    eq_refl) eq_refl).
  - exact (proj1 (proj2 (fixed_padding_borders images channels_last
                           1 64 64 3 7 eq_refl)) eq_refl eq_refl).
  - exact (proj1 (proj2 (proj2 (fixed_padding_borders images channels_last
                                  1 64 64 3 4 eq_refl)) eq_refl eq_refl)).
Defined.

(** ** [conv2d_fixed_padding] *)

Lemma ZeroPadding2D_op a b df x y :
  layers.ZeroPadding2D (a, b) df x = Ok y →
  op y = Pad ((a, a), (b, b)) df (op x).
Proof.
  unfold layers.ZeroPadding2D.
  destruct (image_dims df (shape x)) as [[[[n h] w] c]|]; [|discriminate].
  destruct (_ && _); [|discriminate]. intros [= <-]. reflexivity.
Qed.

Lemma Conv2D_op f k s p ub ki df x y :
  layers.Conv2D f k s p ub ki df x = Ok y →
  op y = Conv f k s p ub ki df (op x) ∧ 1 ≤ k ∧ 1 ≤ s.
Proof.
  unfold layers.Conv2D.
  destruct (Z.leb_spec 1 f), (Z.leb_spec 1 k), (Z.leb_spec 1 s);
    try discriminate.
  cbn [andb].
  destruct (image_dims df (shape x)) as [[[[n h] w] c]|]; [|discriminate].
  destruct (1 <=? c); [|discriminate].
  destruct (conv_output_length h k p s); [|discriminate].
  destruct (conv_output_length w k p s); [|discriminate].
  intros [= <-]. auto.
Qed.

(** Whenever [conv2d_fixed_padding] returns, the graph it built is
    [conv_ops] over its input: no padding and [SAME] for stride 1,
    [ZeroPadding2D] followed by a [VALID] convolution for larger strides. *)
Lemma conv2d_fixed_padding_op x f k s df y :
  conv2d_fixed_padding x f k s df = Ok y → op y = conv_ops f k s df (op x).
Proof.
  unfold conv2d_fixed_padding, conv_ops, fixed_padding. intros H.
  apply bind_Ok_inv in H as (x' & Hpad & Hconv).
  apply Conv2D_op in Hconv as (-> & _ & Hs).
  destruct (Z.ltb_spec 1 s) as [Hlt|Hge].
  - apply bind_Ok_inv in Hpad as (p & Hp & [= <-]).
    apply ZeroPadding2D_op in Hp as ->.
    destruct (Z.eqb_spec s 1); [lia | reflexivity].
  - injection Hpad as <-.
    destruct (Z.eqb_spec s 1); [reflexivity | lia].
Qed.

Section conv2d_fixed_padding.
Context (x : tensor) (df : data_format) (n h w c : Z).
Hypothesis Hx : shape x = image_shape df n h w c.

Lemma conv2d_fixed_padding_stride_1 f k :
  1 ≤ k → 1 ≤ f → 1 ≤ c →
  conv2d_fixed_padding x f k 1 df =
  Ok (Tensor (conv_ops f k 1 df (op x)) (image_shape df n h w f)).
Proof using Hx.
  intros Hk Hf Hc. unfold conv2d_fixed_padding. simpl.
  apply (Conv2D_image _ _ _ _ _ _ Hx); try lia;
    simpl; by rewrite ceil_div_1.
Qed.

Lemma conv2d_fixed_padding_strided f k s :
  1 < s → 1 ≤ k → Z.odd k = true → 1 ≤ h → 1 ≤ w → 1 ≤ f → 1 ≤ c →
  conv2d_fixed_padding x f k s df =
  Ok (Tensor (conv_ops f k s df (op x))
        (image_shape df n ((h - 1) / s + 1) ((w - 1) / s + 1) f)).
Proof using Hx.
  intros Hs Hk Hodd Hh Hw Hf Hc. unfold conv2d_fixed_padding, conv_ops.
  destruct (Z.ltb_spec 1 s); [|lia].
  rewrite (fixed_padding_image _ _ _ _ _ _ Hx) by lia.
  cbn [mbind result_bind].
  destruct (Z.eqb_spec s 1); [lia|].
  pose proof (odd_half k Hodd) as Hhalf.
  eapply Conv2D_image; [reflexivity | lia | lia | lia | lia | |].
  - unfold conv_output_length.
    destruct (Z.ltb_spec (h + (k - 1) / 2 + (k - 1) / 2) k); [lia|].
    do 3 f_equal. lia.
  - unfold conv_output_length.
    destruct (Z.ltb_spec
                (w + (k - 1 - (k - 1) / 2) + (k - 1 - (k - 1) / 2)) k);
      [lia|].
    do 3 f_equal. lia.
Qed.

(** For every stride and odd kernel, the output covers
    [ceil (h / s)] by [ceil (w / s)] positions. *)
Lemma conv2d_fixed_padding_shape f k s :
  1 ≤ s → 1 ≤ k → Z.odd k = true → 1 ≤ h → 1 ≤ w → 1 ≤ f → 1 ≤ c →
  conv2d_fixed_padding x f k s df =
  Ok (Tensor (conv_ops f k s df (op x))
        (image_shape df n (ceil_div h s) (ceil_div w s) f)).
Proof using Hx.
  intros Hs Hk Hodd Hh Hw Hf Hc.
  destruct (decide (s = 1)) as [->|Hne].
  - rewrite !ceil_div_1. by apply conv2d_fixed_padding_stride_1.
  - rewrite <- !ceil_div_pred by lia.
    apply conv2d_fixed_padding_strided; (lia || assumption).
Qed.

End conv2d_fixed_padding.

(** ** C10 *)

(** C10. For every stride [s > 1], odd kernel size [k >= 1] and spatial
    extents [h, w >= 1], on an input with at least one channel and for
    at least one filter, the explicit padding of [conv2d_fixed_padding]
    brings each extent [n] to [n + k - 1], the [VALID] convolution then
    yields [(n + k - 1 - k) / s + 1], and the call returns a tensor of
    extent [(n - 1) / s + 1 = ceil (n / s)] along both axes. *)
Theorem conv2d_fixed_padding_output_extent (x : tensor) (df : data_format)
    (b h w c f k s : Z) :
  shape x = image_shape df b h w c →
  1 < s → 1 ≤ k → Z.odd k = true → 1 ≤ h → 1 ≤ w → 1 ≤ f → 1 ≤ c →
  (∃ p, fixed_padding x k df = Ok p ∧
        shape p = image_shape df b (h + k - 1) (w + k - 1) c) ∧
  conv_output_length (h + k - 1) k VALID s = Some ((h + k - 1 - k) / s + 1) ∧
  conv_output_length (w + k - 1) k VALID s = Some ((w + k - 1 - k) / s + 1) ∧
  (∃ y, conv2d_fixed_padding x f k s df = Ok y ∧
        shape y = image_shape df b ((h - 1) / s + 1) ((w - 1) / s + 1) f) ∧
  (h + k - 1 - k) / s + 1 = (h - 1) / s + 1 ∧
  (w + k - 1 - k) / s + 1 = (w - 1) / s + 1 ∧
  (h - 1) / s + 1 = ceil_div h s ∧
  (w - 1) / s + 1 = ceil_div w s.
Proof.
  intros Hx Hs Hk Hodd Hh Hw Hf Hc.
  pose proof (odd_half k Hodd) as Hhalf.
  repeat apply conj.
  - eexists. split; [apply (fixed_padding_image _ _ _ _ _ _ Hx); lia|].
    simpl. f_equal; lia.
  - unfold conv_output_length. destruct (Z.ltb_spec (h + k - 1) k); [lia|].
    reflexivity.
  - unfold conv_output_length. destruct (Z.ltb_spec (w + k - 1) k); [lia|].
    reflexivity.
  - eexists. split;
      [apply (conv2d_fixed_padding_strided _ _ _ _ _ _ Hx); assumption|].
    reflexivity.
  - do 2 f_equal. lia.
  - do 2 f_equal. lia.
  - apply ceil_div_pred. lia.
  - apply ceil_div_pred. lia.
Qed.

Lemma conv2d_fixed_padding_output_extent_witness :
  ∃ y, conv2d_fixed_padding (Tensor (Feed "images") [1; 7; 10; 3]) 64 7 2
         channels_last = Ok y ∧
       shape y = [1; 4; 5; 64].
Proof.
  exact (proj1 (proj2 (proj2 (proj2
    (conv2d_fixed_padding_output_extent
       (Tensor (Feed "images") [1; 7; 10; 3]) channels_last 1 7 10 3 64 7 2
       eq_refl ltac:(lia) ltac:(lia) eq_refl ltac:(lia) ltac:(lia)
       ltac:(lia) ltac:(lia)))))).
Defined.

(** ** C4 *)

(** C4. With the even kernel size 2 and stride 2, [conv2d_fixed_padding]
    does not split the total padding of 1 into 0 before and 1 after along
    each spatial axis: it pads the height by 0 on both sides and the
    width by 1 on both sides, so a 64 x 64 input becomes 64 x 66 and the
    [VALID] convolution returns 32 x 33. *)
Theorem conv2d_fixed_padding_even_kernel :
  conv2d_fixed_padding images 8 2 2 channels_last =
  Ok (Tensor (Conv 8 2 2 VALID false "he_uniform" channels_last
                (Pad ((0, 0), (1, 1)) channels_last (Feed "images")))
        [1; 32; 33; 8]) ∧
  ((0, 0), (1, 1)) ≠
  ((((2 - 1) / 2, 2 - 1 - (2 - 1) / 2), ((2 - 1) / 2, 2 - 1 - (2 - 1) / 2))
     : (Z * Z) * (Z * Z)).
Proof. split; [reflexivity | discriminate]. Qed.

(** ** Residual blocks *)

Lemma batch_norm_op x training df y :
  batch_norm x training df = Ok y →
  op (layers.ReLU y) = bn_relu training df (op x) ∧ shape y = shape x.
Proof.
  unfold batch_norm, tf.layers_batch_normalization.
  destruct (_ && _); [|discriminate]. intros [= <-]. auto.
Qed.

Lemma add_op x y z : tf.add x y = Ok z → op z = AddV2 (op x) (op y).
Proof.
  unfold tf.add. destruct (broadcast _ _); [|discriminate].
  intros [= <-]. reflexivity.
Qed.

(** Splits a successful monadic sequence into its successful steps. *)
Ltac step H a Ha :=
  apply bind_Ok_inv in H as (a & Ha & H).

(** What a block that returns has built: the sum of its convolutional
    path over the input and of the shortcut [sh], which is the input
    itself or the projection of the pre-activated input. *)
Lemma _building_block_v2_op x f tr proj s df y :
  _building_block_v2 x f tr proj s df = Ok y →
  ∃ a sh, batch_norm x tr df = Ok a ∧
          op (layers.ReLU a) = bn_relu tr df (op x) ∧
          match proj with
          | Some p => p (layers.ReLU a) = Ok sh
          | None => sh = x
          end ∧
          op y = AddV2 (building_path f tr s df (op x)) (op sh).
Proof.
  unfold _building_block_v2, building_path. intros H.
  step H a1 Hbn1. step H sh Hsh. step H a2 Hc1. step H a3 Hbn2.
  step H a4 Hc2.
  destruct (batch_norm_op _ _ _ _ Hbn1) as [Hop1 _].
  destruct (batch_norm_op _ _ _ _ Hbn2) as [Hop2 _].
  apply conv2d_fixed_padding_op in Hc1, Hc2. apply add_op in H.
  exists a1, sh. repeat split; try assumption.
  - destruct proj; [assumption | by injection Hsh].
  - rewrite H, Hc2, Hop2, Hc1, Hop1. reflexivity.
Qed.

Lemma _bottleneck_block_v2_op x f tr proj s df y :
  _bottleneck_block_v2 x f tr proj s df = Ok y →
  ∃ a sh, batch_norm x tr df = Ok a ∧
          op (layers.ReLU a) = bn_relu tr df (op x) ∧
          match proj with
          | Some p => p (layers.ReLU a) = Ok sh
          | None => sh = x
          end ∧
          op y = AddV2 (bottleneck_path f tr s df (op x)) (op sh).
Proof.
  unfold _bottleneck_block_v2, bottleneck_path. intros H.
  step H a1 Hbn1. step H sh Hsh. step H a2 Hc1. step H a3 Hbn2.
  step H a4 Hc2. step H a5 Hbn3. step H a6 Hc3.
  destruct (batch_norm_op _ _ _ _ Hbn1) as [Hop1 _].
  destruct (batch_norm_op _ _ _ _ Hbn2) as [Hop2 _].
  destruct (batch_norm_op _ _ _ _ Hbn3) as [Hop3 _].
  apply conv2d_fixed_padding_op in Hc1, Hc2, Hc3. apply add_op in H.
  exists a1, sh. repeat split; try assumption.
  - destruct proj; [assumption | by injection Hsh].
  - rewrite H, Hc3, Hop3, Hc2, Hop2, Hc1, Hop1. reflexivity.
Qed.

(** *** Blocks on image tensors

    From here on the input is an explicit tensor [Tensor g s] whose shape
    is an image shape, so that every call can be rewritten to its
    result. *)

Section image_blocks.
Context (df : data_format) (n : Z).

#[local] Abbreviation img g h w c := (Tensor g (image_shape df n h w c)).

Lemma batch_norm_img g h w c tr :
  batch_norm (img g h w c) tr df =
  Ok (Tensor (FusedBatchNorm
                (match df with channels_first => 1 | channels_last => 3 end)
                _BATCH_NORM_DECAY _BATCH_NORM_EPSILON true true tr true g)
        (image_shape df n h w c)).
Proof. exact (batch_norm_image (img g h w c) df n h w c eq_refl tr). Qed.

Lemma conv2d_fixed_padding_img g h w c f k s :
  1 ≤ s → 1 ≤ k → Z.odd k = true → 1 ≤ h → 1 ≤ w → 1 ≤ f → 1 ≤ c →
  conv2d_fixed_padding (img g h w c) f k s df =
  Ok (img (conv_ops f k s df g) (ceil_div h s) (ceil_div w s) f).
Proof.
  intros. by apply (conv2d_fixed_padding_shape (img g h w c) df n h w c).
Qed.

Lemma add_img g1 g2 h w c :
  tf.add (img g1 h w c) (img g2 h w c) = Ok (img (AddV2 g1 g2) h w c).
Proof. by apply (add_image (img g1 h w c) df n h w c). Qed.

(** Rewrites the calls of a block body, one after the other. *)
Ltac run_block :=
  repeat first
    [ rewrite batch_norm_img
    | rewrite conv2d_fixed_padding_img by first [assumption | lia | reflexivity]
    | rewrite add_img
    | rewrite !ceil_div_1
    | progress (try unfold layers.ReLU;
                cbn [mbind mret result_bind result_ret op shape]) ].

(** The first block of a stage: projection shortcut and the stage's
    stride. *)
Lemma _bottleneck_block_v2_projection g h w c f tr s :
  1 ≤ s → 1 ≤ h → 1 ≤ w → 1 ≤ f → 1 ≤ c →
  _bottleneck_block_v2 (img g h w c) f tr
    (Some (λ inputs, conv2d_fixed_padding inputs (f * 4) 1 s df)) s df =
  Ok (img (AddV2 (bottleneck_path f tr s df g)
             (conv_ops (f * 4) 1 s df (bn_relu tr df g)))
        (ceil_div h s) (ceil_div w s) (4 * f)).
Proof.
  intros Hs Hh Hw Hf Hc.
  unfold _bottleneck_block_v2, bottleneck_path, bn_relu.
  pose proof (ceil_div_pos h s ltac:(lia) Hh).
  pose proof (ceil_div_pos w s ltac:(lia) Hw).
  rewrite (Z.mul_comm f 4). run_block. reflexivity.
Qed.

(** Every later block: identity shortcut and stride 1. *)
Lemma _bottleneck_block_v2_identity g h w f tr :
  1 ≤ h → 1 ≤ w → 1 ≤ f →
  _bottleneck_block_v2 (img g h w (4 * f)) f tr None 1 df =
  Ok (img (AddV2 (bottleneck_path f tr 1 df g) g) h w (4 * f)).
Proof.
  intros Hh Hw Hf. unfold _bottleneck_block_v2, bottleneck_path, bn_relu.
  run_block. reflexivity.
Qed.

End image_blocks.

(** ** Stages *)

Lemma range_length start stop :
  length (range start stop) = Z.to_nat (stop - start).
Proof. unfold range. apply length_seqZ. Qed.

(** A loop whose body ignores the loop variable and extends the graph by
    [G] ends, if it ends, with [G] iterated once per element. *)
Lemma for_each_op {B : Type} (xs : list B) (F : tensor → result tensor)
    (G : graph → graph) :
  (∀ a b, F a = Ok b → op b = G (op a)) →
  ∀ a y, for_each xs (λ inputs _, F inputs) a = Ok y →
         op y = Nat.iter (length xs) G (op a).
Proof.
  intros HF. induction xs as [|x xs IH]; intros a y H.
  - injection H as <-. reflexivity.
  - cbn [for_each] in H. step H b Hb.
    rewrite (IH _ _ H), (HF _ _ Hb). cbn [length].
    by rewrite Nat.iter_succ_r.
Qed.

Lemma identity_op x name y :
  tf.identity x name = Ok y →
  op y = IdentityOp (op x) name ∧ shape y = shape x ∧
  valid_op_name name = true.
Proof.
  unfold tf.identity. destruct (valid_op_name name); [|discriminate].
  intros [= <-]. auto.
Qed.

Lemma identity_valid x name :
  valid_op_name name = true →
  tf.identity x name = Ok (Tensor (IdentityOp (op x) name) (shape x)).
Proof. unfold tf.identity. by intros ->. Qed.

(** What [block_layer] has built when it returns, for either block
    function. *)
Lemma block_layer_op (block_fn : block_fn_t)
    (path : Z → bool → Z → data_format → graph → graph)
    x f bottleneck blocks s tr name df y :
  (∀ x f tr proj s df y,
     block_fn x f tr proj s df = Ok y →
     ∃ a sh, batch_norm x tr df = Ok a ∧
             op (layers.ReLU a) = bn_relu tr df (op x) ∧
             match proj with
             | Some p => p (layers.ReLU a) = Ok sh
             | None => sh = x
             end ∧
             op y = AddV2 (path f tr s df (op x)) (op sh)) →
  block_layer x f bottleneck block_fn blocks s tr name df = Ok y →
  op y = stage_graph path f (if bottleneck then f * 4 else f) blocks s tr
           name df (op x).
Proof.
  intros Hfn H. unfold block_layer in H.
  step H b1 Hb1. step H bn Hloop. apply identity_op in H as (H & _ & _).
  apply Hfn in Hb1 as (a & sh & _ & Ha & Hsh & Hb1).
  apply conv2d_fixed_padding_op in Hsh. rewrite Ha in Hsh.
  apply (for_each_op _ _ (identity_block path f tr df)) in Hloop.
  - unfold stage_graph, projection_block.
    by rewrite H, Hloop, range_length, Hb1, Hsh.
  - intros a' b' Hb'.
    apply Hfn in Hb' as (? & sh' & _ & _ & -> & Hb'). exact Hb'.
Qed.

Section image_stages.
Context (df : data_format) (n : Z).

#[local] Abbreviation img' g h w c := (Tensor g (image_shape df n h w c)).

Lemma identity_blocks_img {B : Type} (xs : list B) f tr h w :
  1 ≤ h → 1 ≤ w → 1 ≤ f →
  ∀ g, for_each xs
         (λ inputs _, _bottleneck_block_v2 inputs f tr None 1 df)
         (img' g h w (4 * f)) =
       Ok (img' (Nat.iter (length xs)
                   (identity_block bottleneck_path f tr df) g)
             h w (4 * f)).
Proof.
  intros Hh Hw Hf. induction xs as [|x xs IH]; intros g; [reflexivity|].
  cbn [for_each]. rewrite _bottleneck_block_v2_identity by assumption.
  cbn [mbind result_bind]. rewrite IH. cbn [length].
  by rewrite Nat.iter_succ_r.
Qed.

(** On an image tensor a bottleneck stage always returns; it divides
    the spatial extents by its stride, rounding up, and has
    [4 * filters] channels. *)
Lemma block_layer_img g h w c f blocks s tr name :
  1 ≤ s → 1 ≤ h → 1 ≤ w → 1 ≤ f → 1 ≤ c → valid_op_name name = true →
  block_layer (img' g h w c) f true _bottleneck_block_v2 blocks s tr
    name df =
  Ok (img' (stage_graph bottleneck_path f (f * 4) blocks s tr name df g)
        (ceil_div h s) (ceil_div w s) (4 * f)).
Proof.
  intros Hs Hh Hw Hf Hc Hname. unfold block_layer.
  rewrite _bottleneck_block_v2_projection by assumption.
  cbn [mbind result_bind].
  rewrite identity_blocks_img by (try apply ceil_div_pos; lia).
  cbn [mbind result_bind].
  rewrite identity_valid, range_length by assumption. reflexivity.
Qed.

End image_stages.

(** ** The network *)

(** The body of [resnet_v2] with its loop over the four stages written
    out. *)
Lemma resnet_v2_unfold x tr df :
  resnet_v2 x tr df =
  (x0 ← conv2d_fixed_padding x 64 7 2 df;
   x0 ← tf.identity x0 "initial_conv";
   x1 ← layers.MaxPool2D 3 2 SAME df x0;
   x1 ← tf.identity x1 "initial_max_pool";
   c2 ← block_layer x1 64 true _bottleneck_block_v2 3 1 tr
          "block_layer1" df;
   c3 ← block_layer c2 128 true _bottleneck_block_v2 4 2 tr
          "block_layer2" df;
   c4 ← block_layer c3 256 true _bottleneck_block_v2 6 2 tr
          "block_layer3" df;
   c5 ← block_layer c4 512 true _bottleneck_block_v2 3 2 tr
          "block_layer4" df;
   mret (<["C5" := c5]> (<["C4" := c4]> (<["C3" := c3]>
          (<["C2" := c2]> (∅ : gmap string tensor)))))).
Proof.
  unfold resnet_v2.
  destruct (conv2d_fixed_padding x 64 7 2 df) as [x0|e]; [|reflexivity].
  cbn [mbind result_bind].
  destruct (tf.identity x0 "initial_conv") as [x0'|e]; [|reflexivity].
  cbn [mbind result_bind].
  destruct (layers.MaxPool2D 3 2 SAME df _) as [x1|e]; [|reflexivity].
  cbn [mbind result_bind].
  destruct (tf.identity x1 "initial_max_pool") as [x1'|e]; [|reflexivity].
  cbn [mbind result_bind].
  change (enumerate [3; 4; 6; 3]) with [(0, 3); (1, 4); (2, 6); (3, 3)].
  cbn [for_each].
  change (getitem [1; 2; 2; 2] 0) with (Ok 1). cbn [mbind result_bind].
  change (64 * 2 ^ 0) with 64.
  change ("block_layer" +:+ pretty (0 + 1)) with "block_layer1".
  change ("C" +:+ pretty (0 + 2)) with "C2".
  destruct (block_layer _ 64 _ _ _ _ _ _ _) as [c2|e]; [|reflexivity].
  cbn [mbind result_bind mret result_ret].
  change (getitem [1; 2; 2; 2] 1) with (Ok 2). cbn [mbind result_bind].
  change (64 * 2 ^ 1) with 128.
  change ("block_layer" +:+ pretty (1 + 1)) with "block_layer2".
  change ("C" +:+ pretty (1 + 2)) with "C3".
  destruct (block_layer _ 128 _ _ _ _ _ _ _) as [c3|e]; [|reflexivity].
  cbn [mbind result_bind mret result_ret].
  change (getitem [1; 2; 2; 2] 2) with (Ok 2). cbn [mbind result_bind].
  change (64 * 2 ^ 2) with 256.
  change ("block_layer" +:+ pretty (2 + 1)) with "block_layer3".
  change ("C" +:+ pretty (2 + 2)) with "C4".
  destruct (block_layer _ 256 _ _ _ _ _ _ _) as [c4|e]; [|reflexivity].
  cbn [mbind result_bind mret result_ret].
  change (getitem [1; 2; 2; 2] 3) with (Ok 2). cbn [mbind result_bind].
  change (64 * 2 ^ 3) with 512.
  change ("block_layer" +:+ pretty (3 + 1)) with "block_layer4".
  change ("C" +:+ pretty (3 + 2)) with "C5".
  destruct (block_layer _ 512 _ _ _ _ _ _ _) as [c5|e]; reflexivity.
Qed.

Lemma MaxPool2D_img df n g h w c :
  layers.MaxPool2D 3 2 SAME df (Tensor g (image_shape df n h w c)) =
  Ok (Tensor (MaxPool 3 2 SAME df g)
        (image_shape df n (ceil_div h 2) (ceil_div w 2) c)).
Proof.
  by apply (MaxPool2D_image (Tensor g (image_shape df n h w c)) df n h w c).
Qed.

(** On a batch of images with at least one row, one column and one
    channel the network is built without error, and the result is known
    in closed form. *)
Lemma resnet_v2_img df n g h w c tr :
  1 ≤ h → 1 ≤ w → 1 ≤ c →
  resnet_v2 (Tensor g (image_shape df n h w c)) tr df =
  Ok (<["C5" := Tensor (C5_graph tr df g)
                  (image_shape df n (ceil_div h 32) (ceil_div w 32) 2048)]>
     (<["C4" := Tensor (C4_graph tr df g)
                  (image_shape df n (ceil_div h 16) (ceil_div w 16) 1024)]>
     (<["C3" := Tensor (C3_graph tr df g)
                  (image_shape df n (ceil_div h 8) (ceil_div w 8) 512)]>
     (<["C2" := Tensor (C2_graph tr df g)
                  (image_shape df n (ceil_div h 4) (ceil_div w 4) 256)]>
        ∅)))).
Proof.
  intros Hh Hw Hc. rewrite resnet_v2_unfold.
  assert (∀ m a, 1 ≤ m → 0 < a → 1 ≤ ceil_div m a) as Hpos
    by (intros; by apply ceil_div_pos).
  rewrite conv2d_fixed_padding_img by (reflexivity || lia).
  cbn [mbind result_bind].
  rewrite identity_valid by reflexivity.
  cbn [mbind result_bind op shape].
  rewrite MaxPool2D_img.
  cbn [mbind result_bind].
  rewrite identity_valid by reflexivity.
  cbn [mbind result_bind op shape].
  rewrite !ceil_div_ceil_div by lia. change (2 * 2) with 4.
  rewrite block_layer_img by (reflexivity || (try apply Hpos; lia)).
  cbn [mbind result_bind].
  rewrite !ceil_div_1.
  rewrite block_layer_img by (reflexivity || (try apply Hpos; lia)).
  cbn [mbind result_bind].
  rewrite !ceil_div_ceil_div by lia. change (4 * 2) with 8.
  rewrite block_layer_img by (reflexivity || (try apply Hpos; lia)).
  cbn [mbind result_bind].
  rewrite !ceil_div_ceil_div by lia. change (8 * 2) with 16.
  rewrite block_layer_img by (reflexivity || (try apply Hpos; lia)).
  cbn [mbind result_bind].
  rewrite !ceil_div_ceil_div by lia. change (16 * 2) with 32.
  reflexivity.
Qed.

Lemma spatial_size_img df n g h w c :
  spatial_size df (Tensor g (image_shape df n h w c)) = Some (h, w).
Proof.
  unfold spatial_size. cbn [shape]. by rewrite image_dims_image_shape.
Qed.

Lemma channels_img df n g h w c :
  channels df (Tensor g (image_shape df n h w c)) = Some c.
Proof.
  unfold channels. cbn [shape]. by rewrite image_dims_image_shape.
Qed.

Lemma tensor_eta (x : tensor) : x = Tensor (op x) (shape x).
Proof. by destruct x. Qed.

Lemma MaxPool2D_op k s p df x y :
  layers.MaxPool2D k s p df x = Ok y → op y = MaxPool k s p df (op x).
Proof.
  unfold layers.MaxPool2D.
  destruct (image_dims df (shape x)) as [[[[n h] w] c]|]; [|discriminate].
  destruct (_ && _); [|discriminate].
  destruct (conv_output_length h k p s); [|discriminate].
  destruct (conv_output_length w k p s); [|discriminate].
  intros [= <-]. reflexivity.
Qed.

(** Whenever [resnet_v2] returns, each of its calls has returned, and the
    result maps the four keys to the outputs of the four stages. *)
Lemma resnet_v2_inv x tr df m :
  resnet_v2 x tr df = Ok m →
  ∃ x0 x0' x1 stem c2 c3 c4 c5,
    conv2d_fixed_padding x 64 7 2 df = Ok x0 ∧
    tf.identity x0 "initial_conv" = Ok x0' ∧
    layers.MaxPool2D 3 2 SAME df x0' = Ok x1 ∧
    tf.identity x1 "initial_max_pool" = Ok stem ∧
    block_layer stem (64 * 2 ^ 0) true _bottleneck_block_v2 3 1 tr
      "block_layer1" df = Ok c2 ∧
    block_layer c2 (64 * 2 ^ 1) true _bottleneck_block_v2 4 2 tr
      "block_layer2" df = Ok c3 ∧
    block_layer c3 (64 * 2 ^ 2) true _bottleneck_block_v2 6 2 tr
      "block_layer3" df = Ok c4 ∧
    block_layer c4 (64 * 2 ^ 3) true _bottleneck_block_v2 3 2 tr
      "block_layer4" df = Ok c5 ∧
    m = <["C5" := c5]> (<["C4" := c4]> (<["C3" := c3]> (<["C2" := c2]> ∅))).
Proof.
  rewrite resnet_v2_unfold. intros H.
  step H x0 H0. step H x0' H0'. step H x1 H1. step H stem H1'.
  step H c2 H2. step H c3 H3. step H c4 H4.
  step H c5 H5. injection H as <-.
  exists x0, x0', x1, stem, c2, c3, c4, c5. auto 12.
Qed.

Lemma stem_op x df x0 x0' x1 stem :
  conv2d_fixed_padding x 64 7 2 df = Ok x0 →
  tf.identity x0 "initial_conv" = Ok x0' →
  layers.MaxPool2D 3 2 SAME df x0' = Ok x1 →
  tf.identity x1 "initial_max_pool" = Ok stem →
  op stem = stem_graph df (op x).
Proof.
  intros H0 H0' H1 H1'. apply conv2d_fixed_padding_op in H0.
  apply identity_op in H0' as (H0' & _). apply identity_op in H1' as (H1' & _).
  apply MaxPool2D_op in H1. unfold stem_graph.
  by rewrite H1', H1, H0', H0.
Qed.

Lemma feature_map_lookups (c2 c3 c4 c5 : tensor) :
  let m : gmap string tensor :=
    <["C5" := c5]> (<["C4" := c4]> (<["C3" := c3]> (<["C2" := c2]> ∅))) in
  m !! "C2" = Some c2 ∧ m !! "C3" = Some c3 ∧
  m !! "C4" = Some c4 ∧ m !! "C5" = Some c5 ∧
  dom m = {["C2"; "C3"; "C4"; "C5"]}.
Proof.
  intros m. unfold m.
  split; [by simplify_map_eq|]. split; [by simplify_map_eq|].
  split; [by simplify_map_eq|]. split; [by simplify_map_eq|].
  rewrite !dom_insert_L, dom_empty_L. set_solver.
Qed.

(** ** C1 *)

(** C1. Whenever [resnet_v2] returns, for every input tensor, training
    flag and data format, it returns a mapping whose keys are exactly
    'C2', 'C3', 'C4', 'C5' and in which key ['C%d' % (i + 2)] is the
    output of the call of [block_layer] named ['block_layer%d' % (i + 1)],
    for i = 0..3, each stage being fed the output of the one before; and
    the first stage being fed the stem over the input; and it does return
    on every batch of images with at least one row, one column and one
    channel. *)
Theorem resnet_v2_returns_feature_map :
  (∀ x tr df m,
     resnet_v2 x tr df = Ok m →
     dom m = {["C2"; "C3"; "C4"; "C5"]} ∧
     ∃ stem c2 c3 c4 c5,
       op stem = stem_graph df (op x) ∧
       block_layer stem 64 true _bottleneck_block_v2 3 1 tr
         "block_layer1" df = Ok c2 ∧
       block_layer c2 128 true _bottleneck_block_v2 4 2 tr
         "block_layer2" df = Ok c3 ∧
       block_layer c3 256 true _bottleneck_block_v2 6 2 tr
         "block_layer3" df = Ok c4 ∧
       block_layer c4 512 true _bottleneck_block_v2 3 2 tr
         "block_layer4" df = Ok c5 ∧
       ∀ (i : nat) (c : tensor),
         [c2; c3; c4; c5] !! i = Some c →
         m !! ("C" +:+ pretty (Z.of_nat i + 2)) = Some c) ∧
  (∀ x tr df n h w c,
     shape x = image_shape df n h w c → 1 ≤ h → 1 ≤ w → 1 ≤ c →
     ∃ m, resnet_v2 x tr df = Ok m).
Proof.
  split.
  - intros x tr df m H.
    apply resnet_v2_inv in H
      as (x0 & x0' & x1 & stem & c2 & c3 & c4 & c5 & H0 & H0' & H1 & H1' &
          H2 & H3 & H4 & H5 & ->).
    pose proof (stem_op _ _ _ _ _ _ H0 H0' H1 H1') as Hstem.
    destruct (feature_map_lookups c2 c3 c4 c5)
      as (L2 & L3 & L4 & L5 & Hdom).
    split; [exact Hdom|].
    exists stem, c2, c3, c4, c5.
    repeat split; try assumption.
    intros i c Hi.
    destruct i as [|[|[|[|i]]]]; try discriminate;
      injection Hi as <-; assumption.
  - intros x tr df n h w c Hx Hh Hw Hc.
    rewrite (tensor_eta x), Hx, resnet_v2_img by assumption. eauto.
Qed.

Lemma resnet_v2_returns_feature_map_witness :
  ∃ m, resnet_v2 images true channels_last = Ok m ∧
       dom m = {["C2"; "C3"; "C4"; "C5"]}.
Proof.
  destruct (proj2 resnet_v2_returns_feature_map images true channels_last
              1 64 64 3 eq_refl ltac:(lia) ltac:(lia) ltac:(lia)) as [m Hm].
  exists m. split; [exact Hm|].
  exact (proj1 (proj1 resnet_v2_returns_feature_map images true
                  channels_last m Hm)).
Defined.

(** ** Counting layers on the main path *)

Lemma conv_ops_count f k s df g :
  main_path_count is_add (conv_ops f k s df g) = main_path_count is_add g ∧
  main_path_count is_conv (conv_ops f k s df g) =
    S (main_path_count is_conv g).
Proof. unfold conv_ops. destruct (1 <? s); split; reflexivity. Qed.

Lemma bottleneck_path_count f tr s df g :
  main_path_count is_add (bottleneck_path f tr s df g) =
    main_path_count is_add g ∧
  main_path_count is_conv (bottleneck_path f tr s df g) =
    (3 + main_path_count is_conv g)%nat.
Proof.
  unfold bottleneck_path, bn_relu. split.
  - repeat (rewrite (proj1 (conv_ops_count _ _ _ _ _));
            cbn [main_path_count is_add Nat.add]).
    reflexivity.
  - repeat (rewrite (proj2 (conv_ops_count _ _ _ _ _));
            cbn [main_path_count is_conv Nat.add]).
    reflexivity.
Qed.

(** A bottleneck stage puts [1 + (blocks - 1)] additions and three times
    as many convolutions on the main path. *)
Lemma stage_graph_count f fo blocks s tr name df g :
  let k := S (Z.to_nat (blocks - 1)) in
  main_path_count is_add
    (stage_graph bottleneck_path f fo blocks s tr name df g) =
    (k + main_path_count is_add g)%nat ∧
  main_path_count is_conv
    (stage_graph bottleneck_path f fo blocks s tr name df g) =
    (3 * k + main_path_count is_conv g)%nat.
Proof.
  unfold stage_graph. cbn [main_path_count is_add is_conv Nat.add].
  set (G := identity_block bottleneck_path f tr df).
  set (g0 := projection_block bottleneck_path f fo tr s df g).
  assert (main_path_count is_add g0 = S (main_path_count is_add g) ∧
          main_path_count is_conv g0 = (3 + main_path_count is_conv g)%nat)
    as [Ha0 Hc0].
  { unfold g0, projection_block.
    cbn [main_path_count is_add is_conv Nat.add].
    destruct (bottleneck_path_count f tr s df g) as [-> ->]. split; lia. }
  induction (Z.to_nat (blocks - 1)) as [|j [IHa IHc]].
  - change (Nat.iter 0 G g0) with g0. rewrite Ha0, Hc0. split; lia.
  - rewrite Nat.iter_succ. unfold G at 1 3, identity_block.
    cbn [main_path_count is_add is_conv Nat.add].
    destruct (bottleneck_path_count f tr 1 df (Nat.iter j G g0)) as [-> ->].
    rewrite IHa, IHc. split; lia.
Qed.

(** ** C2 *)

(** C2. Whenever [resnet_v2] returns, it has assembled, after the stem
    (7x7 stride-2 convolution and 3x3 stride-2 max pooling), exactly four
    stages by calling [block_layer] with [bottleneck = True] and
    [block_fn = _bottleneck_block_v2], with block counts 3, 4, 6, 3,
    strides 1, 2, 2, 2 and filter counts [64 * 2^i]; the stages hold 3, 4,
    6 and 3 residual additions, and the main path from the input to C5
    holds 49 convolutions, which makes the backbone of ResNet-50. *)
Theorem resnet_v2_stages (x : tensor) (tr : bool) (df : data_format)
    (m : gmap string tensor) :
  resnet_v2 x tr df = Ok m →
  ∃ stem c2 c3 c4 c5,
    op stem = stem_graph df (op x) ∧
    block_layer stem (64 * 2 ^ 0) true _bottleneck_block_v2 3 1 tr
      "block_layer1" df = Ok c2 ∧
    block_layer c2 (64 * 2 ^ 1) true _bottleneck_block_v2 4 2 tr
      "block_layer2" df = Ok c3 ∧
    block_layer c3 (64 * 2 ^ 2) true _bottleneck_block_v2 6 2 tr
      "block_layer3" df = Ok c4 ∧
    block_layer c4 (64 * 2 ^ 3) true _bottleneck_block_v2 3 2 tr
      "block_layer4" df = Ok c5 ∧
    m = <["C5" := c5]> (<["C4" := c4]> (<["C3" := c3]> (<["C2" := c2]> ∅))) ∧
    op c2 = stage_graph bottleneck_path 64 256 3 1 tr "block_layer1" df
              (op stem) ∧
    op c3 = stage_graph bottleneck_path 128 512 4 2 tr "block_layer2" df
              (op c2) ∧
    op c4 = stage_graph bottleneck_path 256 1024 6 2 tr "block_layer3" df
              (op c3) ∧
    op c5 = stage_graph bottleneck_path 512 2048 3 2 tr "block_layer4" df
              (op c4) ∧
    main_path_count is_add (op c2) =
      (3 + main_path_count is_add (op stem))%nat ∧
    main_path_count is_add (op c3) =
      (4 + main_path_count is_add (op c2))%nat ∧
    main_path_count is_add (op c4) =
      (6 + main_path_count is_add (op c3))%nat ∧
    main_path_count is_add (op c5) =
      (3 + main_path_count is_add (op c4))%nat ∧
    main_path_count is_conv (op c5) =
      (49 + main_path_count is_conv (op x))%nat.
Proof.
  intros H.
  apply resnet_v2_inv in H
    as (x0 & x0' & x1 & stem & c2 & c3 & c4 & c5 & H0 & H0' & H1 & H1' &
        H2 & H3 & H4 & H5 & ->).
  pose proof (stem_op _ _ _ _ _ _ H0 H0' H1 H1') as Hstem.
  pose proof (block_layer_op _ bottleneck_path _ _ _ _ _ _ _ _ _
                _bottleneck_block_v2_op H2) as G2.
  pose proof (block_layer_op _ bottleneck_path _ _ _ _ _ _ _ _ _
                _bottleneck_block_v2_op H3) as G3.
  pose proof (block_layer_op _ bottleneck_path _ _ _ _ _ _ _ _ _
                _bottleneck_block_v2_op H4) as G4.
  pose proof (block_layer_op _ bottleneck_path _ _ _ _ _ _ _ _ _
                _bottleneck_block_v2_op H5) as G5.
  change (64 * 2 ^ 0 * 4) with 256 in G2. change (64 * 2 ^ 0) with 64 in G2.
  change (64 * 2 ^ 1 * 4) with 512 in G3. change (64 * 2 ^ 1) with 128 in G3.
  change (64 * 2 ^ 2 * 4) with 1024 in G4. change (64 * 2 ^ 2) with 256 in G4.
  change (64 * 2 ^ 3 * 4) with 2048 in G5. change (64 * 2 ^ 3) with 512 in G5.
  exists stem, c2, c3, c4, c5.
  do 10 (split; [assumption || reflexivity|]).
  assert (main_path_count is_conv (stem_graph df (op x)) =
          S (main_path_count is_conv (op x))) as Hstemc.
  { unfold stem_graph. cbn [main_path_count is_conv Nat.add].
    apply conv_ops_count. }
  rewrite G5, G4, G3, G2, Hstem.
  repeat split;
    repeat (rewrite ?(proj1 (stage_graph_count _ _ _ _ _ _ _ _)),
                    ?(proj2 (stage_graph_count _ _ _ _ _ _ _ _)));
    rewrite ?Hstemc; cbn [Z.to_nat Z.sub Z.add Z.opp Z.pos_sub Pos.to_nat
                          Pos.iter_op Pos.pred_double Nat.add];
    lia.
Qed.

Lemma resnet_v2_stages_witness :
  ∃ m c5, resnet_v2 images true channels_last = Ok m ∧
          m !! "C5" = Some c5 ∧
          main_path_count is_add (op c5) = 16%nat ∧
          main_path_count is_conv (op c5) = 49%nat.
Proof.
  pose proof (resnet_v2_img channels_last 1 (Feed "images") 64 64 3 true
                ltac:(lia) ltac:(lia) ltac:(lia)) as Hm.
  destruct (resnet_v2_stages images true channels_last _ Hm)
    as (stem & c2 & c3 & c4 & c5 & Hstem & _ & _ & _ & _ & Heq & _ & _ & _ &
        _ & A2 & A3 & A4 & A5 & Hconv).
  eexists _, c5. split; [exact Hm|]. rewrite Heq. split.
  - apply feature_map_lookups.
  - rewrite A5, A4, A3, A2, Hstem, Hconv. split; reflexivity.
Defined.

(** ** C3 *)

Lemma ceil_div_divide_32 (H k : Z) :
  0 < k → (k | 32) → (32 | H) → ceil_div H k = H / k.
Proof.
  intros Hk Hk32 H32. apply ceil_div_divide; [assumption|].
  by apply (Z.divide_trans k 32 H).
Qed.

(** C3. For every image batch of spatial size H x W with H and W positive
    multiples of 32 and at least one channel, the stem convolution
    returns H/2 x W/2, the max pooling H/4 x W/4, and the feature maps C2,
    C3, C4, C5 of the returned mapping have spatial sizes H/4 x W/4,
    H/8 x W/8, H/16 x W/16 and H/32 x W/32. *)
Theorem feature_maps_are_multi_scale (x : tensor) (tr : bool)
    (df : data_format) (n H W c : Z) :
  shape x = image_shape df n H W c →
  0 < H → 0 < W → (32 | H) → (32 | W) → 1 ≤ c →
  ∃ x0 x0' x1 c2 c3 c4 c5 m,
    conv2d_fixed_padding x 64 7 2 df = Ok x0 ∧
    spatial_size df x0 = Some (H / 2, W / 2) ∧
    tf.identity x0 "initial_conv" = Ok x0' ∧
    layers.MaxPool2D 3 2 SAME df x0' = Ok x1 ∧
    spatial_size df x1 = Some (H / 4, W / 4) ∧
    resnet_v2 x tr df = Ok m ∧
    m !! "C2" = Some c2 ∧ m !! "C3" = Some c3 ∧
    m !! "C4" = Some c4 ∧ m !! "C5" = Some c5 ∧
    spatial_size df c2 = Some (H / 4, W / 4) ∧
    spatial_size df c3 = Some (H / 8, W / 8) ∧
    spatial_size df c4 = Some (H / 16, W / 16) ∧
    spatial_size df c5 = Some (H / 32, W / 32).
Proof.
  intros Hx HH HW H32 W32 Hc.
  assert (∀ k q, 0 < k → 32 = k * q → (k | 32)) as Hdiv.
  { intros k q _ ->. exists q. lia. }
  pose proof (ceil_div_divide_32 H 2 ltac:(lia) (Hdiv 2 16 ltac:(lia) eq_refl)
                H32) as H2.
  pose proof (ceil_div_divide_32 W 2 ltac:(lia) (Hdiv 2 16 ltac:(lia) eq_refl)
                W32) as W2.
  pose proof (ceil_div_divide_32 H 4 ltac:(lia) (Hdiv 4 8 ltac:(lia) eq_refl)
                H32) as H4.
  pose proof (ceil_div_divide_32 W 4 ltac:(lia) (Hdiv 4 8 ltac:(lia) eq_refl)
                W32) as W4.
  pose proof (ceil_div_divide_32 H 8 ltac:(lia) (Hdiv 8 4 ltac:(lia) eq_refl)
                H32) as H8.
  pose proof (ceil_div_divide_32 W 8 ltac:(lia) (Hdiv 8 4 ltac:(lia) eq_refl)
                W32) as W8.
  pose proof (ceil_div_divide_32 H 16 ltac:(lia)
                (Hdiv 16 2 ltac:(lia) eq_refl) H32) as H16.
  pose proof (ceil_div_divide_32 W 16 ltac:(lia)
                (Hdiv 16 2 ltac:(lia) eq_refl) W32) as W16.
  pose proof (ceil_div_divide_32 H 32 ltac:(lia)
                (Hdiv 32 1 ltac:(lia) eq_refl) H32) as H32'.
  pose proof (ceil_div_divide_32 W 32 ltac:(lia)
                (Hdiv 32 1 ltac:(lia) eq_refl) W32) as W32'.
  rewrite (tensor_eta x), Hx.
  do 8 eexists.
  split; [apply conv2d_fixed_padding_img; (reflexivity || lia)|].
  split; [by rewrite spatial_size_img, H2, W2|].
  split; [by apply identity_valid|]. cbn [op shape].
  split; [apply MaxPool2D_img|].
  split.
  { rewrite spatial_size_img, !ceil_div_ceil_div by lia.
    change (2 * 2) with 4. by rewrite H4, W4. }
  split; [apply resnet_v2_img; lia|].
  split; [apply feature_map_lookups|].
  split; [apply feature_map_lookups|].
  split; [apply feature_map_lookups|].
  split; [apply feature_map_lookups|].
  rewrite !spatial_size_img, H4, W4, H8, W8, H16, W16, H32', W32'.
  auto.
Qed.

Lemma feature_maps_are_multi_scale_witness :
  ∃ m c2 c5,
    resnet_v2 images true channels_last = Ok m ∧
    m !! "C2" = Some c2 ∧ m !! "C5" = Some c5 ∧
    spatial_size channels_last c2 = Some (16, 16) ∧
    spatial_size channels_last c5 = Some (2, 2).
Proof.
  destruct (feature_maps_are_multi_scale images true channels_last 1 64 64 3
              eq_refl ltac:(lia) ltac:(lia)
              (ex_intro _ 2 eq_refl) (ex_intro _ 2 eq_refl) ltac:(lia))
    as (x0 & x0' & x1 & c2 & c3 & c4 & c5 & m & _ & _ & _ & _ & _ & Hm & L2 &
        _ & _ & L5 & S2 & _ & _ & S5).
  exists m, c2, c5. auto.
Defined.

(** ** C9 *)

(** C9. For every image batch with at least one row, one column and one
    channel, the four returned feature maps have 256, 512, 1024 and 2048
    channels.  More generally every bottleneck stage with at least one
    filter and a valid name returns [4 * filters] channels: the path of
    every block ends in a 1x1 convolution with [4 * filters] filters, the
    first block adds it to a projection with [filters_out = filters * 4]
    filters, and every later block adds it to its input, which has
    [4 * filters] channels. *)
Theorem feature_maps_channels (x : tensor) (tr : bool) (df : data_format)
    (n h w c : Z) :
  shape x = image_shape df n h w c → 1 ≤ h → 1 ≤ w → 1 ≤ c →
  (∃ c2 c3 c4 c5 m,
     resnet_v2 x tr df = Ok m ∧
     m !! "C2" = Some c2 ∧ m !! "C3" = Some c3 ∧
     m !! "C4" = Some c4 ∧ m !! "C5" = Some c5 ∧
     channels df c2 = Some 256 ∧ channels df c3 = Some 512 ∧
     channels df c4 = Some 1024 ∧ channels df c5 = Some 2048 ∧
     op c2 = C2_graph tr df (op x) ∧ op c3 = C3_graph tr df (op x) ∧
     op c4 = C4_graph tr df (op x) ∧ op c5 = C5_graph tr df (op x)) ∧
  (∀ f blocks s name,
     1 ≤ s → 1 ≤ f → valid_op_name name = true →
     ∃ y, block_layer x f true _bottleneck_block_v2 blocks s tr name df
            = Ok y ∧
          op y = stage_graph bottleneck_path f (f * 4) blocks s tr name df
                   (op x) ∧
          channels df y = Some (4 * f)) ∧
  (∀ f s,
     1 ≤ s → 1 ≤ f →
     ∃ y, _bottleneck_block_v2 x f tr
            (Some (λ inputs, conv2d_fixed_padding inputs (f * 4) 1 s df))
            s df = Ok y ∧
          op y = AddV2 (bottleneck_path f tr s df (op x))
                   (conv_ops (f * 4) 1 s df (bn_relu tr df (op x))) ∧
          channels df y = Some (4 * f)) ∧
  (∀ f,
     1 ≤ f → c = 4 * f →
     ∃ y, _bottleneck_block_v2 x f tr None 1 df = Ok y ∧
          op y = AddV2 (bottleneck_path f tr 1 df (op x)) (op x) ∧
          channels df y = Some (4 * f)) ∧
  (∀ f s g,
     bottleneck_path f tr s df g =
     Conv (4 * f) 1 1 SAME false "he_uniform" df
       (bn_relu tr df (conv_ops f 3 s df (bn_relu tr df
          (conv_ops f 1 1 df (bn_relu tr df g)))))).
Proof.
  intros Hx Hh Hw Hc. rewrite (tensor_eta x), Hx. cbn [op].
  split; [|split; [|split; [|split]]].
  - do 5 eexists.
    split; [apply resnet_v2_img; lia|].
    split; [apply feature_map_lookups|].
    split; [apply feature_map_lookups|].
    split; [apply feature_map_lookups|].
    split; [apply feature_map_lookups|].
    rewrite !channels_img. cbn [op]. auto 10.
  - intros f blocks s name Hs Hf Hname. eexists.
    split; [by apply block_layer_img|].
    split; [reflexivity|]. by rewrite channels_img.
  - intros f s Hs Hf. eexists.
    split; [by apply _bottleneck_block_v2_projection|].
    split; [reflexivity|]. by rewrite channels_img.
  - intros f Hf ->. eexists.
    split; [by apply _bottleneck_block_v2_identity|].
    split; [reflexivity|]. by rewrite channels_img.
  - reflexivity.
Qed.

Lemma feature_maps_channels_witness :
  ∃ m c2 c3 c4 c5,
    resnet_v2 images true channels_last = Ok m ∧
    m !! "C2" = Some c2 ∧ m !! "C3" = Some c3 ∧
    m !! "C4" = Some c4 ∧ m !! "C5" = Some c5 ∧
    channels channels_last c2 = Some 256 ∧
    channels channels_last c3 = Some 512 ∧
    channels channels_last c4 = Some 1024 ∧
    channels channels_last c5 = Some 2048.
Proof.
  destruct (proj1 (feature_maps_channels images true channels_last 1 64 64 3
                     eq_refl ltac:(lia) ltac:(lia) ltac:(lia)))
    as (c2 & c3 & c4 & c5 & m & Hm & L2 & L3 & L4 & L5 & N2 & N3 & N4 & N5 &
        _).
  exists m, c2, c3, c4, c5. auto 10.
Defined.

(** ** C5 *)

(** C5. Whenever a block returns, its convolutional path is a chain of
    batch normalisation, ReLU and convolution, in this order: three times
    with kernel sizes 1, 3, 1 in the bottleneck block and twice with
    kernel sizes 3, 3 in the building block.  Whenever [resnet_v2]
    returns, the tensor handed to the first stage is the stem convolution
    followed only by the naming identities and the max pooling, with no
    batch normalisation and no ReLU. *)
Theorem preactivation_layer_order :
  (∀ x f tr proj s df y,
     _bottleneck_block_v2 x f tr proj s df = Ok y →
     ∃ shortcut,
       op y =
       AddV2
         (conv_ops (4 * f) 1 1 df (bn_relu tr df
           (conv_ops f 3 s df (bn_relu tr df
             (conv_ops f 1 1 df (bn_relu tr df (op x)))))))
         shortcut) ∧
  (∀ x f tr proj s df y,
     _building_block_v2 x f tr proj s df = Ok y →
     ∃ shortcut,
       op y =
       AddV2
         (conv_ops f 3 1 df (bn_relu tr df
           (conv_ops f 3 s df (bn_relu tr df (op x)))))
         shortcut) ∧
  (∀ tr df g,
     bn_relu tr df g =
     Relu (FusedBatchNorm
             (match df with channels_first => 1 | channels_last => 3 end)
             (Dec 997 (-3)) (Dec 1 (-5)) true true tr true g)) ∧
  (∀ x tr df m,
     resnet_v2 x tr df = Ok m →
     ∃ stem c2,
       op stem =
       IdentityOp
         (MaxPool 3 2 SAME df
            (IdentityOp (conv_ops 64 7 2 df (op x)) "initial_conv"))
         "initial_max_pool" ∧
       block_layer stem 64 true _bottleneck_block_v2 3 1 tr
         "block_layer1" df = Ok c2 ∧
       m !! "C2" = Some c2).
Proof.
  split; [|split; [|split]].
  - intros x f tr proj s df y H.
    apply _bottleneck_block_v2_op in H as (a & sh & _ & _ & _ & ->).
    by exists (op sh).
  - intros x f tr proj s df y H.
    apply _building_block_v2_op in H as (a & sh & _ & _ & _ & ->).
    by exists (op sh).
  - reflexivity.
  - intros x tr df m H.
    apply resnet_v2_inv in H
      as (x0 & x0' & x1 & stem & c2 & c3 & c4 & c5 & H0 & H0' & H1 & H1' &
          H2 & _ & _ & _ & ->).
    exists stem, c2.
    split; [exact (stem_op _ _ _ _ _ _ H0 H0' H1 H1')|].
    split; [exact H2|]. apply feature_map_lookups.
Qed.

Lemma preactivation_layer_order_witness :
  ∃ y shortcut,
    _bottleneck_block_v2 (Tensor (Feed "features") [1; 16; 16; 256]) 64 true
      None 1 channels_last = Ok y ∧
    op y =
    AddV2
      (conv_ops 256 1 1 channels_last (bn_relu true channels_last
        (conv_ops 64 3 1 channels_last (bn_relu true channels_last
          (conv_ops 64 1 1 channels_last (bn_relu true channels_last
            (Feed "features")))))))
      shortcut.
Proof.
  assert (_bottleneck_block_v2 (Tensor (Feed "features") [1; 16; 16; 256])
            64 true None 1 channels_last =
          Ok (Tensor (AddV2 (bottleneck_path 64 true 1 channels_last
                               (Feed "features")) (Feed "features"))
                [1; 16; 16; 256])) as Hy by reflexivity.
  destruct (proj1 preactivation_layer_order _ _ _ _ _ _ _ Hy)
    as [shortcut Hop].
  eexists _, shortcut. split; [exact Hy | exact Hop].
Defined.

(** ** C6 *)

(** C6. Both block functions return the sum of their convolutional path
    and a shortcut, the shortcut being the unmodified input unless a
    projection is given, which is then applied to the pre-activated
    input.  Whenever [block_layer] returns, with either block function,
    its first block has the stage's stride and the shortcut
    [conv_ops filters_out 1 strides] (a 1x1 convolution with
    [filters_out] filters and the stage's stride) over the pre-activated
    input, and each of the [blocks - 1] later blocks has stride 1 and its
    own input as shortcut. *)
Theorem residual_topology :
  builds_blocks _building_block_v2 building_path ∧
  builds_blocks _bottleneck_block_v2 bottleneck_path ∧
  (∀ block_fn path x f bottleneck blocks s tr name df y,
     (block_fn = _building_block_v2 ∧ path = building_path) ∨
     (block_fn = _bottleneck_block_v2 ∧ path = bottleneck_path) →
     block_layer x f bottleneck block_fn blocks s tr name df = Ok y →
     op y =
     IdentityOp
       (Nat.iter (Z.to_nat (blocks - 1))
          (λ g, AddV2 (path f tr 1 df g) g)
          (AddV2 (path f tr s df (op x))
             (conv_ops (if bottleneck then f * 4 else f) 1 s df
                (bn_relu tr df (op x)))))
       name).
Proof.
  split; [|split].
  - intros x f tr proj s df y. apply _building_block_v2_op.
  - intros x f tr proj s df y. apply _bottleneck_block_v2_op.
  - intros block_fn path x f bottleneck blocks s tr name df y Hfn H.
    apply (block_layer_op block_fn path) in H; [exact H|].
    destruct Hfn as [[-> ->]|[-> ->]];
      intros ? ? ? ? ? ? ?;
      [apply _building_block_v2_op | apply _bottleneck_block_v2_op].
Qed.

Lemma residual_topology_witness :
  ∃ y, block_layer images 64 true _bottleneck_block_v2 3 1 true
         "block_layer1" channels_last = Ok y ∧
       op y =
       IdentityOp
         (Nat.iter 2
            (λ g, AddV2 (bottleneck_path 64 true 1 channels_last g) g)
            (AddV2 (bottleneck_path 64 true 1 channels_last (Feed "images"))
               (conv_ops 256 1 1 channels_last
                  (bn_relu true channels_last (Feed "images")))))
         "block_layer1".
Proof.
  pose proof (block_layer_img channels_last 1 (Feed "images") 64 64 3 64 3 1
                true "block_layer1" ltac:(lia) ltac:(lia) ltac:(lia)
                ltac:(lia) ltac:(lia) eq_refl) as Hy.
  eexists. split; [exact Hy|].
  exact (proj2 (proj2 residual_topology) _bottleneck_block_v2
           bottleneck_path images 64 true 3 1 true "block_layer1"
           channels_last _ (or_intror (conj eq_refl eq_refl)) Hy).
Defined.

(** ** C7 *)

(** *** Where a sequence of calls raises *)

Lemma bind_Raise_iff {A B : Type} (m : result A) (k : A → result B) e :
  m ≫= k = Raise e ↔ first_raise e m (λ a, k a = Raise e).
Proof.
  unfold first_raise. split.
  - apply bind_Raise_inv.
  - intros [-> | (a & -> & H)]; [reflexivity | exact H].
Qed.

Lemma first_raise_ext {A : Type} e (m : result A) (K K' : A → Prop) :
  (∀ a, K a ↔ K' a) → first_raise e m K ↔ first_raise e m K'.
Proof.
  intros HK. unfold first_raise.
  split; (intros [H | (a & Ha & H)]; [by left | right; exists a]);
    (split; [exact Ha | by apply HK]).
Qed.

(** Peels the calls of a monadic sequence, one [first_raise] each. *)
Ltac peel :=
  repeat (etrans; [apply bind_Raise_iff|];
          apply first_raise_ext; intros ?);
  try reflexivity.

(** A loop that ignores its loop variable raises [e] exactly when, after
    some number of iterations that returned, the next one raises [e]. *)
Lemma for_each_Raise_iff {B : Type} (xs : list B)
    (F : tensor → result tensor) e :
  ∀ a0, for_each xs (λ inputs _, F inputs) a0 = Raise e ↔
        ∃ (j : nat) a,
          (j < length xs)%nat ∧
          for_each (take j xs) (λ inputs _, F inputs) a0 = Ok a ∧
          F a = Raise e.
Proof.
  induction xs as [|x xs IH]; intros a0.
  - split; [discriminate|]. intros (j & a & Hj & _). cbn in Hj. lia.
  - cbn [for_each]. rewrite bind_Raise_iff. unfold first_raise. split.
    + intros [H | (a1 & Ha1 & H)].
      * exists 0%nat, a0. cbn. split; [lia|]. auto.
      * apply IH in H as (j & a & Hj & Hrun & Hraise).
        exists (S j), a. cbn [length take for_each]. rewrite Ha1.
        split; [lia|]. auto.
    + intros ([|j] & a & Hj & Hrun & Hraise).
      * injection Hrun as <-. by left.
      * cbn [take for_each] in Hrun.
        apply bind_Ok_inv in Hrun as (a1 & Ha1 & Hrun).
        right. exists a1. split; [exact Ha1|]. apply IH.
        exists j, a. cbn [length] in Hj. split; [lia|]. auto.
Qed.

(** *** Only [ValueError] *)

Lemma rov_ret {A : Type} (a : A) : raises_only_ValueError (mret a).
Proof. intros e H. discriminate H. Qed.

Lemma rov_bind {A B : Type} (m : result A) (k : A → result B) :
  raises_only_ValueError m →
  (∀ a, m = Ok a → raises_only_ValueError (k a)) →
  raises_only_ValueError (m ≫= k).
Proof.
  intros Hm Hk e H.
  apply bind_Raise_inv in H as [H | (a & Ha & H)]; [by apply Hm|].
  by apply (Hk a).
Qed.

Lemma batch_normalization_Raise x axis mo ep ce sc tr fu e :
  tf.layers_batch_normalization x axis mo ep ce sc tr fu = Raise e →
  e = ValueError prim_batch_normalization [shape x].
Proof.
  unfold tf.layers_batch_normalization.
  destruct (_ && _); [discriminate | by intros [= <-]].
Qed.

Lemma identity_Raise x name e :
  tf.identity x name = Raise e → e = ValueError prim_identity [shape x].
Proof.
  unfold tf.identity.
  destruct (valid_op_name name); [discriminate | by intros [= <-]].
Qed.

Lemma add_Raise x y e :
  tf.add x y = Raise e → e = ValueError prim_add [shape x; shape y].
Proof.
  unfold tf.add.
  destruct (broadcast _ _); [discriminate | by intros [= <-]].
Qed.

Lemma ZeroPadding2D_Raise p df x e :
  layers.ZeroPadding2D p df x = Raise e →
  e = ValueError prim_ZeroPadding2D [shape x].
Proof.
  unfold layers.ZeroPadding2D. destruct p as [a b].
  destruct (image_dims _ _) as [[[[? ?] ?] ?]|];
    [destruct (_ && _); [discriminate|]|]; by intros [= <-].
Qed.

Lemma Conv2D_Raise f k s p ub ki df x e :
  layers.Conv2D f k s p ub ki df x = Raise e →
  e = ValueError prim_Conv2D [shape x] ∨ e = ValueError prim_Conv2D [].
Proof.
  unfold layers.Conv2D.
  destruct (_ && _); [|intros [= <-]; by right].
  destruct (image_dims _ _) as [[[[? ?] ?] ?]|];
    [destruct (1 <=? _);
     [destruct (conv_output_length _ _ _ _);
      [destruct (conv_output_length _ _ _ _); [discriminate|]|]|]|];
    intros [= <-]; by left.
Qed.

Lemma MaxPool2D_Raise k s p df x e :
  layers.MaxPool2D k s p df x = Raise e →
  e = ValueError prim_MaxPool2D [shape x].
Proof.
  unfold layers.MaxPool2D.
  destruct (image_dims _ _) as [[[[? ?] ?] ?]|];
    [destruct (_ && _);
     [destruct (conv_output_length _ _ _ _);
      [destruct (conv_output_length _ _ _ _); [discriminate|]|]|]|];
    by intros [= <-].
Qed.

Lemma rov_batch_norm x tr df : raises_only_ValueError (batch_norm x tr df).
Proof.
  intros e H. apply batch_normalization_Raise in H. eauto.
Qed.

Lemma rov_identity x name : raises_only_ValueError (tf.identity x name).
Proof. intros e H. apply identity_Raise in H. eauto. Qed.

Lemma rov_add x y : raises_only_ValueError (tf.add x y).
Proof. intros e H. apply add_Raise in H. eauto. Qed.

Lemma rov_conv2d_fixed_padding x f k s df :
  raises_only_ValueError (conv2d_fixed_padding x f k s df).
Proof.
  unfold conv2d_fixed_padding. apply rov_bind.
  - destruct (1 <? s); [|apply rov_ret]. unfold fixed_padding.
    apply rov_bind; [|intros; apply rov_ret].
    intros e H. apply ZeroPadding2D_Raise in H. eauto.
  - intros a _ e H. apply Conv2D_Raise in H as [-> | ->]; eauto.
Qed.

Lemma rov_shortcut (proj : option (tensor → result tensor)) x a :
  (∀ p z, proj = Some p → raises_only_ValueError (p z)) →
  raises_only_ValueError
    (match proj with Some p => p a | None => mret x end).
Proof. intros Hp. destruct proj; [by apply Hp | apply rov_ret]. Qed.

Lemma rov_building_block x f tr proj s df :
  (∀ p z, proj = Some p → raises_only_ValueError (p z)) →
  raises_only_ValueError (_building_block_v2 x f tr proj s df).
Proof.
  intros Hp. unfold _building_block_v2.
  repeat first
    [ apply rov_batch_norm | apply rov_conv2d_fixed_padding
    | apply rov_add | by apply rov_shortcut
    | apply rov_bind; [|intros ? _] ].
Qed.

Lemma rov_bottleneck_block x f tr proj s df :
  (∀ p z, proj = Some p → raises_only_ValueError (p z)) →
  raises_only_ValueError (_bottleneck_block_v2 x f tr proj s df).
Proof.
  intros Hp. unfold _bottleneck_block_v2.
  repeat first
    [ apply rov_batch_norm | apply rov_conv2d_fixed_padding
    | apply rov_add | by apply rov_shortcut
    | apply rov_bind; [|intros ? _] ].
Qed.

Lemma rov_for_each {A B : Type} (xs : list B) (body : A → B → result A) :
  (∀ a x, raises_only_ValueError (body a x)) →
  ∀ a, raises_only_ValueError (for_each xs body a).
Proof.
  intros Hbody. induction xs as [|x xs IH]; intros a.
  - apply rov_ret.
  - cbn [for_each]. apply rov_bind; [apply Hbody | intros; apply IH].
Qed.

Lemma rov_block_layer x f bottleneck (block_fn : block_fn_t) blocks s tr
    name df :
  (∀ x f tr proj s df,
     (∀ p z, proj = Some p → raises_only_ValueError (p z)) →
     raises_only_ValueError (block_fn x f tr proj s df)) →
  raises_only_ValueError
    (block_layer x f bottleneck block_fn blocks s tr name df).
Proof.
  intros Hfn. unfold block_layer.
  apply rov_bind; [|intros b _; apply rov_bind].
  - apply Hfn. intros p z [= <-]. apply rov_conv2d_fixed_padding.
  - apply rov_for_each. intros a _. apply Hfn. discriminate.
  - intros; apply rov_identity.
Qed.

Lemma rov_resnet_v2 x tr df : raises_only_ValueError (resnet_v2 x tr df).
Proof.
  rewrite resnet_v2_unfold.
  repeat first
    [ apply rov_conv2d_fixed_padding | apply rov_identity
    | apply rov_block_layer; apply rov_bottleneck_block
    | apply rov_ret
    | apply rov_bind; [|intros ? _] ].
  intros e H. apply MaxPool2D_Raise in H. eauto.
Qed.

(** C7. None of the module's functions raises an exception of its own.
    Every exception of [batch_norm], [fixed_padding],
    [conv2d_fixed_padding], the two block functions, [block_layer] and
    [resnet_v2] is the exception of the call at which the function
    stopped, after all the calls before it returned: a call of a
    framework primitive, of the projection handed to a block, or of
    another function of the module, of which the same holds.  A primitive
    raises a [ValueError] that names it and the shapes of the operands of
    that very call, and [resnet_v2] raises nothing but such a
    [ValueError], never the [IndexError] of a subscript. *)
Theorem errors_come_from_the_framework :
  (∀ x axis mo ep ce sc tr fu e,
     tf.layers_batch_normalization x axis mo ep ce sc tr fu = Raise e →
     e = ValueError prim_batch_normalization [shape x]) ∧
  (∀ x name e,
     tf.identity x name = Raise e → e = ValueError prim_identity [shape x]) ∧
  (∀ x y e,
     tf.add x y = Raise e → e = ValueError prim_add [shape x; shape y]) ∧
  (∀ p df x e,
     layers.ZeroPadding2D p df x = Raise e →
     e = ValueError prim_ZeroPadding2D [shape x]) ∧
  (∀ f k s p ub ki df x e,
     layers.Conv2D f k s p ub ki df x = Raise e →
     e = ValueError prim_Conv2D [shape x] ∨ e = ValueError prim_Conv2D []) ∧
  (∀ k s p df x e,
     layers.MaxPool2D k s p df x = Raise e →
     e = ValueError prim_MaxPool2D [shape x]) ∧
  (∀ x tr df e,
     batch_norm x tr df = Raise e ↔
     tf.layers_batch_normalization x
       (match df with channels_first => 1 | channels_last => 3 end)
       _BATCH_NORM_DECAY _BATCH_NORM_EPSILON true true tr true = Raise e) ∧
  (∀ x k df e,
     fixed_padding x k df = Raise e ↔
     layers.ZeroPadding2D ((k - 1) / 2, k - 1 - (k - 1) / 2) df x
       = Raise e) ∧
  (∀ x f k s df e,
     conv2d_fixed_padding x f k s df = Raise e ↔
     first_raise e (if 1 <? s then fixed_padding x k df else Ok x) (λ x',
       layers.Conv2D f k s (if s =? 1 then SAME else VALID) false
         "he_uniform" df x' = Raise e)) ∧
  (∀ x f tr proj s df e,
     _building_block_v2 x f tr proj s df = Raise e ↔
     first_raise e (batch_norm x tr df) (λ a,
     first_raise e
       (match proj with Some p => p (layers.ReLU a) | None => Ok x end)
       (λ shortcut,
     first_raise e (conv2d_fixed_padding (layers.ReLU a) f 3 s df) (λ b,
     first_raise e (batch_norm b tr df) (λ b',
     first_raise e (conv2d_fixed_padding (layers.ReLU b') f 3 1 df) (λ c,
     tf.add c shortcut = Raise e)))))) ∧
  (∀ x f tr proj s df e,
     _bottleneck_block_v2 x f tr proj s df = Raise e ↔
     first_raise e (batch_norm x tr df) (λ a,
     first_raise e
       (match proj with Some p => p (layers.ReLU a) | None => Ok x end)
       (λ shortcut,
     first_raise e (conv2d_fixed_padding (layers.ReLU a) f 1 1 df) (λ b,
     first_raise e (batch_norm b tr df) (λ b',
     first_raise e (conv2d_fixed_padding (layers.ReLU b') f 3 s df) (λ c,
     first_raise e (batch_norm c tr df) (λ c',
     first_raise e
       (conv2d_fixed_padding (layers.ReLU c') (4 * f) 1 1 df) (λ d,
     tf.add d shortcut = Raise e)))))))) ∧
  (∀ x f bottleneck (block_fn : block_fn_t) blocks s tr name df e,
     block_layer x f bottleneck block_fn blocks s tr name df = Raise e ↔
     first_raise e
       (block_fn x f tr
          (Some (λ inputs,
             conv2d_fixed_padding inputs
               (if bottleneck then f * 4 else f) 1 s df)) s df) (λ first,
     (∃ (j : nat) a,
        (j < length (range 1 blocks))%nat ∧
        for_each (take j (range 1 blocks))
          (λ inputs _, block_fn inputs f tr None 1 df) first = Ok a ∧
        block_fn a f tr None 1 df = Raise e) ∨
     (∃ last,
        for_each (range 1 blocks)
          (λ inputs _, block_fn inputs f tr None 1 df) first = Ok last ∧
        tf.identity last name = Raise e))) ∧
  (∀ x tr df e,
     resnet_v2 x tr df = Raise e ↔
     first_raise e (conv2d_fixed_padding x 64 7 2 df) (λ x0,
     first_raise e (tf.identity x0 "initial_conv") (λ x0',
     first_raise e (layers.MaxPool2D 3 2 SAME df x0') (λ x1,
     first_raise e (tf.identity x1 "initial_max_pool") (λ stem,
     first_raise e
       (block_layer stem 64 true _bottleneck_block_v2 3 1 tr
          "block_layer1" df) (λ c2,
     first_raise e
       (block_layer c2 128 true _bottleneck_block_v2 4 2 tr
          "block_layer2" df) (λ c3,
     first_raise e
       (block_layer c3 256 true _bottleneck_block_v2 6 2 tr
          "block_layer3" df) (λ c4,
     block_layer c4 512 true _bottleneck_block_v2 3 2 tr "block_layer4" df
       = Raise e)))))))) ∧
  (∀ x tr df e,
     resnet_v2 x tr df = Raise e → ∃ p shapes, e = ValueError p shapes).
Proof.
  split; [apply batch_normalization_Raise|].
  split; [apply identity_Raise|].
  split; [apply add_Raise|].
  split; [apply ZeroPadding2D_Raise|].
  split; [apply Conv2D_Raise|].
  split; [apply MaxPool2D_Raise|].
  split; [reflexivity|].
  split.
  { intros x k df e. unfold fixed_padding. rewrite bind_Raise_iff.
    unfold first_raise. split; [|by left].
    intros [H | (a & _ & H)]; [exact H | discriminate H]. }
  split; [intros; unfold conv2d_fixed_padding; apply bind_Raise_iff|].
  split; [intros; unfold _building_block_v2; peel|].
  split; [intros; unfold _bottleneck_block_v2; peel|].
  split.
  { intros x f bottleneck block_fn blocks s tr name df e.
    unfold block_layer. etrans; [apply bind_Raise_iff|].
    apply first_raise_ext. intros first.
    rewrite bind_Raise_iff. unfold first_raise.
    rewrite (for_each_Raise_iff _ (λ inputs, block_fn inputs f tr None 1 df)).
    reflexivity. }
  split.
  { intros x tr df e. rewrite resnet_v2_unfold.
    do 7 (etrans; [apply bind_Raise_iff|];
          apply first_raise_ext; intros ?).
    rewrite bind_Raise_iff. unfold first_raise. split; [|by left].
    intros [H | (c5 & _ & H)]; [exact H | discriminate H]. }
  apply rov_resnet_v2.
Qed.

Lemma errors_come_from_the_framework_witness :
  fixed_padding (Tensor (Feed "images") [1; 64; 3]) 7 channels_last =
    Raise (ValueError prim_ZeroPadding2D [[1; 64; 3]]) ∧
  layers.ZeroPadding2D (3, 3) channels_last
    (Tensor (Feed "images") [1; 64; 3]) =
    Raise (ValueError prim_ZeroPadding2D [[1; 64; 3]]).
Proof.
  split; [reflexivity|].
  exact (proj1 (proj1 (proj2 (proj2 (proj2 (proj2 (proj2 (proj2 (proj2
           errors_come_from_the_framework)))))))
           (Tensor (Feed "images") [1; 64; 3]) 7 channels_last _) eq_refl).
Defined.

(** * Further properties of the module *)

(** ** When [resnet_v2] returns *)

Lemma image_dims_Some df s n h w c :
  image_dims df s = Some (n, h, w, c) → s = image_shape df n h w c.
Proof.
  destruct df; simpl;
    repeat (destruct s as [|? s]; try discriminate);
    intros [= -> -> -> ->]; reflexivity.
Qed.

(** An input that is not of rank 4 is rejected by the padding of the
    stem convolution. *)
Lemma resnet_v2_rejects_rank x tr df :
  image_dims df (shape x) = None →
  resnet_v2 x tr df = Raise (ValueError prim_ZeroPadding2D [shape x]).
Proof.
  intros Hx. rewrite resnet_v2_unfold.
  unfold conv2d_fixed_padding, fixed_padding, layers.ZeroPadding2D.
  change (1 <? 2) with true. cbn beta iota zeta.
  rewrite Hx. reflexivity.
Qed.

(** An image without rows, without columns or without channels is
    rejected by the stem convolution, which sees it padded by 3 on every
    border. *)
Lemma resnet_v2_rejects_empty x tr df n h w c :
  shape x = image_shape df n h w c → h < 1 ∨ w < 1 ∨ c < 1 →
  resnet_v2 x tr df =
  Raise (ValueError prim_Conv2D [image_shape df n (h + 6) (w + 6) c]).
Proof.
  intros Hx Hhw. rewrite resnet_v2_unfold. unfold conv2d_fixed_padding.
  change (1 <? 2) with true.
  rewrite (fixed_padding_image x df n h w c Hx 7) by lia.
  cbn [mbind result_bind]. change ((7 - 1) / 2) with 3.
  change (7 - 1 - 3) with 3. change (2 =? 1) with false.
  replace (h + 3 + 3) with (h + 6) by lia.
  replace (w + 3 + 3) with (w + 6) by lia.
  unfold layers.Conv2D. cbn [shape]. rewrite image_dims_image_shape.
  cbn [Z.leb Z.compare Pos.compare Pos.compare_cont andb].
  unfold conv_output_length.
  destruct (Z.leb_spec 1 c); [|reflexivity].
  destruct (Z.ltb_spec (h + 6) 7), (Z.ltb_spec (w + 6) 7);
    (reflexivity || lia).
Qed.

(** X1. For every image batch with at least one row, one column and one
    channel, whatever its batch size and data format, the
    feature maps C2, C3, C4, C5 keep the batch size, have 256, 512, 1024,
    2048 channels and [ceil (H / 4)], [ceil (H / 8)], [ceil (H / 16)],
    [ceil (H / 32)] rows (columns alike); each level has half the rows
    and columns of the level before, rounded up, and none is empty. *)
Theorem feature_maps_of_any_image (x : tensor) (tr : bool)
    (df : data_format) (n H W c : Z) :
  shape x = image_shape df n H W c → 1 ≤ H → 1 ≤ W → 1 ≤ c →
  ∃ c2 c3 c4 c5 m,
    resnet_v2 x tr df = Ok m ∧
    m !! "C2" = Some c2 ∧ m !! "C3" = Some c3 ∧
    m !! "C4" = Some c4 ∧ m !! "C5" = Some c5 ∧
    shape c2 = image_shape df n (ceil_div H 4) (ceil_div W 4) 256 ∧
    shape c3 = image_shape df n (ceil_div H 8) (ceil_div W 8) 512 ∧
    shape c4 = image_shape df n (ceil_div H 16) (ceil_div W 16) 1024 ∧
    shape c5 = image_shape df n (ceil_div H 32) (ceil_div W 32) 2048 ∧
    ceil_div H 8 = ceil_div (ceil_div H 4) 2 ∧
    ceil_div W 8 = ceil_div (ceil_div W 4) 2 ∧
    ceil_div H 16 = ceil_div (ceil_div H 8) 2 ∧
    ceil_div W 16 = ceil_div (ceil_div W 8) 2 ∧
    ceil_div H 32 = ceil_div (ceil_div H 16) 2 ∧
    ceil_div W 32 = ceil_div (ceil_div W 16) 2 ∧
    1 ≤ ceil_div H 32 ∧ 1 ≤ ceil_div W 32.
Proof.
  intros Hx HH HW Hc. rewrite (tensor_eta x), Hx.
  do 5 eexists.
  split; [apply resnet_v2_img; lia|].
  split; [apply feature_map_lookups|].
  split; [apply feature_map_lookups|].
  split; [apply feature_map_lookups|].
  split; [apply feature_map_lookups|].
  cbn [shape]. rewrite !ceil_div_ceil_div by lia.
  repeat split; by apply ceil_div_pos.
Qed.

Lemma feature_maps_of_any_image_witness :
  ∃ m c5,
    resnet_v2 (Tensor (Feed "images") [2; 3; 50; 75]) false channels_first
      = Ok m ∧
    m !! "C5" = Some c5 ∧ shape c5 = [2; 2048; 2; 3].
Proof.
  destruct (feature_maps_of_any_image
              (Tensor (Feed "images") [2; 3; 50; 75]) false channels_first
              2 50 75 3 eq_refl ltac:(lia) ltac:(lia) ltac:(lia))
    as (c2 & c3 & c4 & c5 & m & Hm & _ & _ & _ & L5 & _ & _ & _ & S5 & _).
  exists m, c5. auto.
Defined.

(** X2. [resnet_v2] returns exactly on the tensors of rank 4 that have at
    least one row, one column and one channel; and whenever it returns,
    the shapes of the four feature maps are the ones above. *)
Theorem resnet_v2_returns_iff (x : tensor) (tr : bool) (df : data_format) :
  ((∃ m, resnet_v2 x tr df = Ok m) ↔
   (∃ n h w c,
      shape x = image_shape df n h w c ∧ 1 ≤ h ∧ 1 ≤ w ∧ 1 ≤ c)) ∧
  (∀ m, resnet_v2 x tr df = Ok m →
     ∃ n h w c,
       shape x = image_shape df n h w c ∧
       shape <$> m =
       <["C5" := image_shape df n (ceil_div h 32) (ceil_div w 32) 2048]>
      (<["C4" := image_shape df n (ceil_div h 16) (ceil_div w 16) 1024]>
      (<["C3" := image_shape df n (ceil_div h 8) (ceil_div w 8) 512]>
      (<["C2" := image_shape df n (ceil_div h 4) (ceil_div w 4) 256]>
         ∅)))).
Proof.
  assert (∀ m, resnet_v2 x tr df = Ok m →
            ∃ n h w c,
              shape x = image_shape df n h w c ∧ 1 ≤ h ∧ 1 ≤ w ∧ 1 ≤ c)
    as Hinv.
  { intros m Hm.
    destruct (image_dims df (shape x)) as [[[[n h] w] c]|] eqn:Hd.
    - apply image_dims_Some in Hd. exists n, h, w, c.
      split; [exact Hd|].
      destruct (decide (1 ≤ h ∧ 1 ≤ w ∧ 1 ≤ c)) as [|Hno]; [assumption|].
      rewrite (resnet_v2_rejects_empty x tr df n h w c Hd) in Hm by lia.
      discriminate Hm.
    - rewrite (resnet_v2_rejects_rank x tr df Hd) in Hm. discriminate Hm. }
  split; [split|].
  - intros [m Hm]. by apply (Hinv m).
  - intros (n & h & w & c & Hx & Hh & Hw & Hc).
    rewrite (tensor_eta x), Hx, resnet_v2_img by assumption. eauto.
  - intros m Hm.
    destruct (Hinv m Hm) as (n & h & w & c & Hx & Hh & Hw & Hc).
    exists n, h, w, c. split; [exact Hx|].
    rewrite (tensor_eta x), Hx, resnet_v2_img in Hm by assumption.
    injection Hm as <-. by rewrite !fmap_insert, fmap_empty.
Qed.

(** X3. An input that is not of rank 4 makes [resnet_v2] raise the
    [ValueError] of [ZeroPadding2D] on that input; an image with no row
    or no column makes it raise the [ValueError] of the stem's [Conv2D],
    which saw the image padded by 3 on every border. *)
Theorem resnet_v2_errors (x : tensor) (tr : bool) (df : data_format) :
  (image_dims df (shape x) = None →
   resnet_v2 x tr df = Raise (ValueError prim_ZeroPadding2D [shape x])) ∧
  (∀ n h w c,
     shape x = image_shape df n h w c → h < 1 ∨ w < 1 →
     resnet_v2 x tr df =
     Raise (ValueError prim_Conv2D [image_shape df n (h + 6) (w + 6) c])).
Proof.
  split; [apply resnet_v2_rejects_rank|].
  intros n h w c Hx Hhw. apply resnet_v2_rejects_empty; [exact Hx | lia].
Qed.

Lemma resnet_v2_errors_witness :
  resnet_v2 (Tensor (Feed "images") [4; 32; 0; 3]) true channels_last =
  Raise (ValueError prim_Conv2D [[4; 38; 6; 3]]).
Proof.
  apply (proj2 (resnet_v2_errors (Tensor (Feed "images") [4; 32; 0; 3]) true
                  channels_last) 4 32 0 3); [reflexivity | right; lia].
Defined.

Lemma with_training_conv_ops b f k s df g :
  with_training b (conv_ops f k s df g) =
  conv_ops f k s df (with_training b g).
Proof. unfold conv_ops. by destruct (1 <? s). Qed.

Lemma with_training_bottleneck_path b f tr s df g :
  with_training b (bottleneck_path f tr s df g) =
  bottleneck_path f b s df (with_training b g).
Proof.
  unfold bottleneck_path, bn_relu.
  repeat (rewrite with_training_conv_ops; cbn [with_training]).
  reflexivity.
Qed.

Lemma with_training_stage_graph b f fo blocks s tr name df g :
  with_training b (stage_graph bottleneck_path f fo blocks s tr name df g) =
  stage_graph bottleneck_path f fo blocks s b name df (with_training b g).
Proof.
  unfold stage_graph. cbn [with_training]. f_equal.
  induction (Z.to_nat (blocks - 1)) as [|j IH].
  - cbn [Nat.iter nat_rect]. unfold projection_block, bn_relu.
    cbn [with_training].
    by rewrite with_training_bottleneck_path, with_training_conv_ops.
  - rewrite !Nat.iter_succ. unfold identity_block at 1 3.
    cbn [with_training]. by rewrite with_training_bottleneck_path, IH.
Qed.

Lemma with_training_feature_graphs b tr df g :
  with_training b (C2_graph tr df g) = C2_graph b df (with_training b g) ∧
  with_training b (C3_graph tr df g) = C3_graph b df (with_training b g) ∧
  with_training b (C4_graph tr df g) = C4_graph b df (with_training b g) ∧
  with_training b (C5_graph tr df g) = C5_graph b df (with_training b g).
Proof.
  assert (with_training b (stem_graph df g) =
          stem_graph df (with_training b g)) as Hstem.
  { unfold stem_graph. cbn [with_training].
    by rewrite with_training_conv_ops. }
  unfold C5_graph, C4_graph, C3_graph, C2_graph.
  by rewrite !with_training_stage_graph, Hstem.
Qed.

(** X4. The training flag reaches nothing but the [training] attribute
    of the batch-normalisation nodes: two calls of [resnet_v2] on the
    same input that differ in the flag raise the same exception, or
    return feature maps of the same shapes whose graphs are equal once
    that attribute is set to [False] in both. *)
Theorem training_flag_reaches_batch_norm_only (x : tensor) (tr tr' : bool)
    (df : data_format) :
  modulo_training (resnet_v2 x tr df) = modulo_training (resnet_v2 x tr' df).
Proof.
  destruct (image_dims df (shape x)) as [[[[n h] w] c]|] eqn:Hd.
  - apply image_dims_Some in Hd.
    destruct (decide (1 ≤ h ∧ 1 ≤ w ∧ 1 ≤ c)) as [(Hh & Hw & Hc)|Hno].
    + rewrite (tensor_eta x), Hd, !resnet_v2_img by assumption.
      unfold modulo_training. rewrite !fmap_insert. cbn [op shape].
      destruct (with_training_feature_graphs false tr df (op x))
        as (-> & -> & -> & ->).
      destruct (with_training_feature_graphs false tr' df (op x))
        as (-> & -> & -> & ->).
      reflexivity.
    + by rewrite !(resnet_v2_rejects_empty x _ df n h w c Hd) by lia.
  - by rewrite !(resnet_v2_rejects_rank x _ df Hd).
Qed.

(** ** Padding and convolution *)

(** X5. [fixed_padding] returns exactly on tensors of rank 4 and kernel
    sizes of at least 1: for a smaller kernel size [pad_beg] is negative
    and [ZeroPadding2D] rejects it. *)
Theorem fixed_padding_returns_iff (x : tensor) (k : Z) (df : data_format) :
  (∃ y, fixed_padding x k df = Ok y) ↔
  (∃ n h w c, shape x = image_shape df n h w c) ∧ 1 ≤ k.
Proof.
  split.
  - intros [y H]. unfold fixed_padding, layers.ZeroPadding2D in H.
    apply bind_Ok_inv in H as (p & H & _).
    destruct (image_dims df (shape x)) as [[[[n h] w] c]|] eqn:Hd;
      [|discriminate H].
    apply image_dims_Some in Hd.
    destruct (Z.leb_spec 0 ((k - 1) / 2)) as [Hbeg|]; [|discriminate H].
    split; [by exists n, h, w, c|].
    destruct (Z.le_gt_cases 1 k) as [|Hk]; [assumption|].
    pose proof (Z.div_lt_upper_bound (k - 1) 2 0 ltac:(lia) ltac:(lia)).
    lia.
  - intros [(n & h & w & c & Hx) Hk].
    rewrite (fixed_padding_image x df n h w c Hx k Hk). eauto.
Qed.





(** X7. On an image with at least one row, one column and one channel,
    for at least one filter, with stride 1 and any kernel size, or with a
    larger stride and an odd kernel size, [conv2d_fixed_padding] returns
    a tensor of the shape that a [SAME] convolution of the same filters,
    kernel size and stride returns on the unpadded input. *)
Theorem conv2d_fixed_padding_same_shape (x : tensor) (df : data_format)
    (n h w c f k s : Z) :
  shape x = image_shape df n h w c →
  1 ≤ h → 1 ≤ w → 1 ≤ c → 1 ≤ f → 1 ≤ k → 1 ≤ s →
  s = 1 ∨ Z.odd k = true →
  ∃ y y',
    conv2d_fixed_padding x f k s df = Ok y ∧
    layers.Conv2D f k s SAME false "he_uniform" df x = Ok y' ∧
    shape y = shape y'.
Proof.
  intros Hx Hh Hw Hc Hf Hk Hs Hcase.
  rewrite (Conv2D_image x df n h w c Hx f k s SAME false "he_uniform"
             (ceil_div h s) (ceil_div w s)) by (lia || reflexivity).
  destruct Hcase as [-> | Hodd].
  - rewrite (conv2d_fixed_padding_stride_1 x df n h w c Hx) by assumption.
    rewrite !ceil_div_1. eauto.
  - rewrite (conv2d_fixed_padding_shape x df n h w c Hx) by assumption.
    eauto.
Qed.

Lemma conv2d_fixed_padding_same_shape_witness :
  ∃ y y',
    conv2d_fixed_padding (Tensor (Feed "images") [1; 7; 10; 3]) 8 3 2
      channels_last = Ok y ∧
    layers.Conv2D 8 3 2 SAME false "he_uniform" channels_last
      (Tensor (Feed "images") [1; 7; 10; 3]) = Ok y' ∧
    shape y = shape y'.
Proof.
  apply (conv2d_fixed_padding_same_shape
           (Tensor (Feed "images") [1; 7; 10; 3]) channels_last 1 7 10 3 8 3 2);
    (reflexivity || lia || (right; reflexivity)).
Defined.

(** X8. With a stride above 1 and an even kernel size [k], on an image
    with at least one channel and for at least one filter, the height is
    padded by [k - 2] and the width by [k]: an image of at least two rows
    comes out with [(h - 2) / s + 1] rows and [w / s + 1] columns, and an
    image of fewer rows is rejected by the [VALID] convolution. *)
Theorem conv2d_fixed_padding_even_strided (x : tensor) (df : data_format)
    (n h w c f k s : Z) :
  shape x = image_shape df n h w c →
  1 < s → 2 ≤ k → Z.even k = true → 0 ≤ w → 1 ≤ c → 1 ≤ f →
  (2 ≤ h →
   conv2d_fixed_padding x f k s df =
   Ok (Tensor (conv_ops f k s df (op x))
         (image_shape df n ((h - 2) / s + 1) (w / s + 1) f))) ∧
  (h < 2 →
   conv2d_fixed_padding x f k s df =
   Raise (ValueError prim_Conv2D [image_shape df n (h + k - 2) (w + k) c])).
Proof.
  intros Hx Hs Hk Heven Hw Hc Hf.
  pose proof (even_half k Heven) as Hhalf.
  assert (conv2d_fixed_padding x f k s df =
          layers.Conv2D f k s VALID false "he_uniform" df
            (Tensor (Pad (((k - 1) / 2, (k - 1) / 2),
                          (k - 1 - (k - 1) / 2, k - 1 - (k - 1) / 2)) df
                       (op x))
               (image_shape df n (h + k - 2) (w + k) c))) as ->.
  { unfold conv2d_fixed_padding.
    destruct (Z.ltb_spec 1 s); [|lia].
    rewrite (fixed_padding_image x df n h w c Hx k) by lia.
    cbn [mbind result_bind]. destruct (Z.eqb_spec s 1); [lia|].
    do 3 f_equal; lia. }
  split; intros Hh.
  - unfold conv_ops. destruct (Z.ltb_spec 1 s); [|lia].
    eapply Conv2D_image; [reflexivity | lia | lia | lia | lia | |];
      unfold conv_output_length.
    + destruct (Z.ltb_spec (h + k - 2) k); [lia|]. do 3 f_equal. lia.
    + destruct (Z.ltb_spec (w + k) k); [lia|]. do 3 f_equal. lia.
  - unfold layers.Conv2D. cbn [shape]. rewrite image_dims_image_shape.
    destruct (Z.leb_spec 1 f), (Z.leb_spec 1 k), (Z.leb_spec 1 s),
      (Z.leb_spec 1 c); try lia.
    unfold conv_output_length. cbn [andb].
    destruct (Z.ltb_spec (h + k - 2) k); [reflexivity | lia].
Qed.

Lemma conv2d_fixed_padding_even_strided_witness :
  conv2d_fixed_padding (Tensor (Feed "images") [1; 8; 8; 3]) 16 4 2
    channels_last =
    Ok (Tensor (conv_ops 16 4 2 channels_last (Feed "images"))
          [1; 4; 5; 16]) ∧
  conv2d_fixed_padding (Tensor (Feed "images") [1; 1; 8; 3]) 16 4 2
    channels_last =
    Raise (ValueError prim_Conv2D [[1; 3; 12; 3]]).
Proof.
  split.
  - apply (proj1 (conv2d_fixed_padding_even_strided
                    (Tensor (Feed "images") [1; 8; 8; 3]) channels_last
                    1 8 8 3 16 4 2 eq_refl ltac:(lia) ltac:(lia) eq_refl
                    ltac:(lia) ltac:(lia) ltac:(lia))).
    lia.
  - apply (proj2 (conv2d_fixed_padding_even_strided
                    (Tensor (Feed "images") [1; 1; 8; 3]) channels_last
                    1 1 8 3 16 4 2 eq_refl ltac:(lia) ltac:(lia) eq_refl
                    ltac:(lia) ltac:(lia) ltac:(lia))).
    lia.
Defined.

(** ** Blocks and stages beyond the bottleneck network *)

(** Rewrites the calls of a block body on an image tensor, one after the
    other. *)
Ltac run_calls :=
  repeat first
    [ rewrite batch_norm_img
    | rewrite conv2d_fixed_padding_img by first [assumption | lia | reflexivity]
    | rewrite add_img
    | rewrite !ceil_div_1
    | progress (try unfold layers.ReLU;
                cbn [mbind mret result_bind result_ret op shape]) ].

Lemma _building_block_v2_projection df n g h w c f tr s :
  1 ≤ s → 1 ≤ h → 1 ≤ w → 1 ≤ f → 1 ≤ c →
  _building_block_v2 (Tensor g (image_shape df n h w c)) f tr
    (Some (λ inputs, conv2d_fixed_padding inputs f 1 s df)) s df =
  Ok (Tensor (AddV2 (building_path f tr s df g)
                (conv_ops f 1 s df (bn_relu tr df g)))
        (image_shape df n (ceil_div h s) (ceil_div w s) f)).
Proof.
  intros Hs Hh Hw Hf Hc. unfold _building_block_v2, building_path, bn_relu.
  pose proof (ceil_div_pos h s ltac:(lia) Hh).
  pose proof (ceil_div_pos w s ltac:(lia) Hw).
  run_calls. reflexivity.
Qed.

Lemma _building_block_v2_identity df n g h w f tr :
  1 ≤ h → 1 ≤ w → 1 ≤ f →
  _building_block_v2 (Tensor g (image_shape df n h w f)) f tr None 1 df =
  Ok (Tensor (AddV2 (building_path f tr 1 df g) g)
        (image_shape df n h w f)).
Proof.
  intros Hh Hw Hf. unfold _building_block_v2, building_path, bn_relu.
  run_calls. reflexivity.
Qed.

Lemma building_blocks_img {B : Type} df n (xs : list B) f tr h w :
  1 ≤ h → 1 ≤ w → 1 ≤ f →
  ∀ g, for_each xs
         (λ inputs _, _building_block_v2 inputs f tr None 1 df)
         (Tensor g (image_shape df n h w f)) =
       Ok (Tensor (Nat.iter (length xs)
                     (identity_block building_path f tr df) g)
             (image_shape df n h w f)).
Proof.
  intros Hh Hw Hf. induction xs as [|x xs IH]; intros g; [reflexivity|].
  cbn [for_each]. rewrite _building_block_v2_identity by assumption.
  cbn [mbind result_bind]. rewrite IH. cbn [length].
  by rewrite Nat.iter_succ_r.
Qed.

(** X9. On an image tensor with at least one row, one column and one
    channel, [_building_block_v2] with at least one filter returns.  With
    a 1x1 projection of [filters] filters and the block's stride, of at
    least 1, it divides rows and columns by the stride, rounding up, and
    returns [filters] channels, however many channels the input has;
    without projection and with stride 1 it keeps the shape of an input
    that has [filters] channels. *)
Theorem _building_block_v2_shapes (x : tensor) (df : data_format)
    (n h w c f : Z) (tr : bool) :
  shape x = image_shape df n h w c → 1 ≤ h → 1 ≤ w → 1 ≤ c → 1 ≤ f →
  (∀ s, 1 ≤ s →
     ∃ y, _building_block_v2 x f tr
            (Some (λ inputs, conv2d_fixed_padding inputs f 1 s df)) s df
          = Ok y ∧
          shape y = image_shape df n (ceil_div h s) (ceil_div w s) f ∧
          op y = AddV2 (building_path f tr s df (op x))
                   (conv_ops f 1 s df (bn_relu tr df (op x)))) ∧
  (c = f →
   ∃ y, _building_block_v2 x f tr None 1 df = Ok y ∧
        shape y = shape x ∧
        op y = AddV2 (building_path f tr 1 df (op x)) (op x)).
Proof.
  intros Hx Hh Hw Hc Hf. rewrite (tensor_eta x), Hx. cbn [op shape]. split.
  - intros s Hs. eexists.
    split; [by apply _building_block_v2_projection|]. auto.
  - intros ->. eexists.
    split; [by apply _building_block_v2_identity|]. auto.
Qed.

Lemma _building_block_v2_shapes_witness :
  ∃ y, _building_block_v2 images 64 true
         (Some (λ inputs, conv2d_fixed_padding inputs 64 1 2 channels_last))
         2 channels_last = Ok y ∧
       shape y = [1; 32; 32; 64].
Proof.
  destruct (proj1 (_building_block_v2_shapes images channels_last 1 64 64 3
                     64 true eq_refl ltac:(lia) ltac:(lia) ltac:(lia)
                     ltac:(lia)) 2 ltac:(lia))
    as (y & Hy & Hs & _).
  exists y. split; [exact Hy | exact Hs].
Defined.

(** X10. On an image tensor with at least one row, one column and one
    channel, [block_layer] with [bottleneck = False] and the building
    block returns, for every number of blocks, every stride of at least
    1, every [filters] of at least 1 and every [name] that is a valid
    operation name: the result has [filters] channels and the rows and
    columns of the input divided by the stride, rounded up, and its graph
    is one projection block followed by [blocks - 1] identity blocks and
    the [tf.identity] that carries [name]. *)
Theorem block_layer_building_stage (x : tensor) (df : data_format)
    (n h w c f blocks s : Z) (tr : bool) (name : string) :
  shape x = image_shape df n h w c → 1 ≤ h → 1 ≤ w → 1 ≤ c → 1 ≤ s →
  1 ≤ f → valid_op_name name = true →
  block_layer x f false _building_block_v2 blocks s tr name df =
  Ok (Tensor (stage_graph building_path f f blocks s tr name df (op x))
        (image_shape df n (ceil_div h s) (ceil_div w s) f)).
Proof.
  intros Hx Hh Hw Hc Hs Hf Hname. rewrite (tensor_eta x), Hx. cbn [op].
  unfold block_layer.
  rewrite _building_block_v2_projection by assumption.
  cbn [mbind result_bind].
  rewrite building_blocks_img by (try apply ceil_div_pos; lia).
  cbn [mbind result_bind]. rewrite identity_valid by assumption.
  rewrite range_length. reflexivity.
Qed.

Lemma block_layer_building_stage_witness :
  block_layer images 64 false _building_block_v2 2 2 true "stage"
    channels_last =
  Ok (Tensor (stage_graph building_path 64 64 2 2 true "stage"
                channels_last (Feed "images"))
        [1; 32; 32; 64]).
Proof.
  apply (block_layer_building_stage images channels_last 1 64 64 3 64 2 2
           true "stage"); (reflexivity || lia).
Defined.

(** Two image shapes that differ only in their channels, neither having
    one channel, cannot be added. *)
Lemma broadcast_channels_mismatch df n h w c c' :
  c ≠ c' → c ≠ 1 → c' ≠ 1 →
  broadcast (image_shape df n h w c) (image_shape df n h w c') = None.
Proof.
  intros Hne Hc Hc'. unfold broadcast.
  destruct df; cbn [image_shape reverse rev_append broadcast_rev];
    unfold reverse; cbn [rev_append broadcast_rev];
    rewrite ?Z.eqb_refl;
    destruct (Z.eqb_spec c c'), (Z.eqb_spec c 1), (Z.eqb_spec c' 1);
    try lia; reflexivity.
Qed.

Lemma add_img_mismatch df n g1 g2 h w c c' :
  c ≠ c' → c ≠ 1 → c' ≠ 1 →
  tf.add (Tensor g1 (image_shape df n h w c))
         (Tensor g2 (image_shape df n h w c')) =
  Raise (ValueError prim_add
           [image_shape df n h w c; image_shape df n h w c']).
Proof.
  intros. unfold tf.add. cbn [shape].
  by rewrite broadcast_channels_mismatch.
Qed.

(** X11. The [bottleneck] flag of [block_layer] has to agree with the
    block function.  With [filters >= 2], on an image tensor with at
    least one row, one column and one channel, the bottleneck block under
    [bottleneck = False] and the building block under [bottleneck = True]
    both end in the [ValueError] of the addition in the first block,
    whose path and projection have [4 * filters] and [filters] channels,
    or [filters] and [filters * 4]. *)
Theorem block_layer_flag_mismatch (x : tensor) (df : data_format)
    (n h w c f blocks s : Z) (tr : bool) (name : string) :
  shape x = image_shape df n h w c → 1 ≤ h → 1 ≤ w → 1 ≤ c → 1 ≤ s →
  2 ≤ f →
  block_layer x f false _bottleneck_block_v2 blocks s tr name df =
    Raise (ValueError prim_add
             [image_shape df n (ceil_div h s) (ceil_div w s) (4 * f);
              image_shape df n (ceil_div h s) (ceil_div w s) f]) ∧
  block_layer x f true _building_block_v2 blocks s tr name df =
    Raise (ValueError prim_add
             [image_shape df n (ceil_div h s) (ceil_div w s) f;
              image_shape df n (ceil_div h s) (ceil_div w s) (f * 4)]).
Proof.
  intros Hx Hh Hw Hc Hs Hf. rewrite (tensor_eta x), Hx.
  pose proof (ceil_div_pos h s ltac:(lia) Hh).
  pose proof (ceil_div_pos w s ltac:(lia) Hw).
  split; unfold block_layer.
  - unfold _bottleneck_block_v2. run_calls.
    rewrite add_img_mismatch by lia. reflexivity.
  - unfold _building_block_v2. run_calls.
    rewrite add_img_mismatch by lia. reflexivity.
Qed.

Lemma block_layer_flag_mismatch_witness :
  block_layer images 64 false _bottleneck_block_v2 3 1 true "block_layer1"
    channels_last =
  Raise (ValueError prim_add [[1; 64; 64; 256]; [1; 64; 64; 64]]).
Proof.
  apply (proj1 (block_layer_flag_mismatch images channels_last 1 64 64 3 64
                  3 1 true "block_layer1" eq_refl ltac:(lia) ltac:(lia)
                  ltac:(lia) ltac:(lia) ltac:(lia))).
Defined.

Lemma broadcast_one_channel df n h w c :
  broadcast (image_shape df n h w c) (image_shape df n h w 1) =
  Some (image_shape df n h w c).
Proof.
  unfold broadcast.
  destruct df; cbn [image_shape]; unfold reverse;
    cbn [rev_append broadcast_rev]; rewrite ?Z.eqb_refl;
    destruct (Z.eqb_spec c 1) as [->|]; cbn [fmap option_fmap option_map];
    rewrite ?Z.eqb_refl; reflexivity.
Qed.

(** X12. A bottleneck block without projection adds its path, which has
    [4 * filters] channels, to its input.  With [filters >= 1], on an
    image tensor with at least one row, one column and one channel, it
    ends in the [ValueError] of the addition when the input has neither
    [4 * filters] channels nor one channel; an input of one channel is
    broadcast, and the block returns [4 * filters] channels. *)
Theorem _bottleneck_block_v2_identity_channels (x : tensor)
    (df : data_format) (n h w c f : Z) (tr : bool) :
  shape x = image_shape df n h w c → 1 ≤ h → 1 ≤ w → 1 ≤ c → 1 ≤ f →
  (c ≠ 4 * f → c ≠ 1 →
   _bottleneck_block_v2 x f tr None 1 df =
   Raise (ValueError prim_add
            [image_shape df n h w (4 * f); image_shape df n h w c])) ∧
  (c = 1 →
   _bottleneck_block_v2 x f tr None 1 df =
   Ok (Tensor (AddV2 (bottleneck_path f tr 1 df (op x)) (op x))
         (image_shape df n h w (4 * f)))).
Proof.
  intros Hx Hh Hw Hc0 Hf. rewrite (tensor_eta x), Hx. cbn [op].
  unfold _bottleneck_block_v2, bottleneck_path, bn_relu. split.
  - intros Hc Hc1. run_calls. rewrite add_img_mismatch by lia. reflexivity.
  - intros ->. run_calls. unfold tf.add. cbn [shape op].
    by rewrite broadcast_one_channel.
Qed.

Lemma _bottleneck_block_v2_identity_channels_witness :
  _bottleneck_block_v2 images 64 true None 1 channels_last =
    Raise (ValueError prim_add [[1; 64; 64; 256]; [1; 64; 64; 3]]) ∧
  _bottleneck_block_v2 (Tensor (Feed "gray") [1; 64; 64; 1]) 64 true None 1
    channels_last =
    Ok (Tensor (AddV2 (bottleneck_path 64 true 1 channels_last (Feed "gray"))
                  (Feed "gray"))
          [1; 64; 64; 256]).
Proof.
  split.
  - apply (proj1 (_bottleneck_block_v2_identity_channels images
                    channels_last 1 64 64 3 64 true eq_refl ltac:(lia)
                    ltac:(lia) ltac:(lia) ltac:(lia))); lia.
  - apply (proj2 (_bottleneck_block_v2_identity_channels
                    (Tensor (Feed "gray") [1; 64; 64; 1]) channels_last
                    1 64 64 1 64 true eq_refl ltac:(lia) ltac:(lia)
                    ltac:(lia) ltac:(lia))).
    reflexivity.
Defined.

(** ** How many blocks a stage holds *)

Lemma building_path_count f tr s df g :
  main_path_count is_add (building_path f tr s df g) =
    main_path_count is_add g ∧
  main_path_count is_conv (building_path f tr s df g) =
    (2 + main_path_count is_conv g)%nat.
Proof.
  unfold building_path, bn_relu. split.
  - repeat (rewrite (proj1 (conv_ops_count _ _ _ _ _));
            cbn [main_path_count is_add Nat.add]).
    reflexivity.
  - repeat (rewrite (proj2 (conv_ops_count _ _ _ _ _));
            cbn [main_path_count is_conv Nat.add]).
    reflexivity.
Qed.

Lemma stage_graph_count_of_path
    (path : Z → bool → Z → data_format → graph → graph) (k : nat) :
  (∀ f tr s df g,
     main_path_count is_add (path f tr s df g) = main_path_count is_add g ∧
     main_path_count is_conv (path f tr s df g) =
       (k + main_path_count is_conv g)%nat) →
  ∀ f fo blocks s tr name df g,
    main_path_count is_add (stage_graph path f fo blocks s tr name df g) =
      (Z.to_nat (Z.max 1 blocks) + main_path_count is_add g)%nat ∧
    main_path_count is_conv (stage_graph path f fo blocks s tr name df g) =
      (k * Z.to_nat (Z.max 1 blocks) + main_path_count is_conv g)%nat.
Proof.
  intros Hpath f fo blocks s tr name df g.
  replace (Z.to_nat (Z.max 1 blocks)) with (S (Z.to_nat (blocks - 1)))
    by lia.
  unfold stage_graph. cbn [main_path_count is_add is_conv Nat.add].
  set (G := identity_block path f tr df).
  set (g0 := projection_block path f fo tr s df g).
  assert (main_path_count is_add g0 = S (main_path_count is_add g) ∧
          main_path_count is_conv g0 = (k + main_path_count is_conv g)%nat)
    as [Ha0 Hc0].
  { unfold g0, projection_block.
    cbn [main_path_count is_add is_conv Nat.add].
    destruct (Hpath f tr s df g) as [-> ->]. split; lia. }
  induction (Z.to_nat (blocks - 1)) as [|j [IHa IHc]].
  - change (Nat.iter 0 G g0) with g0. rewrite Ha0, Hc0. split; lia.
  - rewrite Nat.iter_succ. unfold G at 1 3, identity_block.
    cbn [main_path_count is_add is_conv Nat.add].
    destruct (Hpath f tr 1 df (Nat.iter j G g0)) as [-> ->].
    rewrite IHa, IHc. split; lia.
Qed.

(** X13. Whenever [block_layer] returns, on any input, the stage it built
    holds [max 1 blocks] residual blocks on top of the input: one
    addition each, with two convolutions on the path for the building
    block and three for the bottleneck block.  A [blocks] of zero or less
    still gives one block. *)
Theorem block_layer_block_count :
  (∀ x f bottleneck blocks s tr name df y,
     block_layer x f bottleneck _building_block_v2 blocks s tr name df
       = Ok y →
     main_path_count is_add (op y) =
       (Z.to_nat (Z.max 1 blocks) + main_path_count is_add (op x))%nat ∧
     main_path_count is_conv (op y) =
       (2 * Z.to_nat (Z.max 1 blocks) + main_path_count is_conv (op x))%nat) ∧
  (∀ x f bottleneck blocks s tr name df y,
     block_layer x f bottleneck _bottleneck_block_v2 blocks s tr name df
       = Ok y →
     main_path_count is_add (op y) =
       (Z.to_nat (Z.max 1 blocks) + main_path_count is_add (op x))%nat ∧
     main_path_count is_conv (op y) =
       (3 * Z.to_nat (Z.max 1 blocks) + main_path_count is_conv (op x))%nat).
Proof.
  split; intros x f bottleneck blocks s tr name df y H.
  - apply (block_layer_op _ building_path) in H;
      [|intros ? ? ? ? ? ? ?; apply _building_block_v2_op].
    rewrite H.
    apply (stage_graph_count_of_path building_path 2
             building_path_count).
  - apply (block_layer_op _ bottleneck_path) in H;
      [|intros ? ? ? ? ? ? ?; apply _bottleneck_block_v2_op].
    rewrite H.
    apply (stage_graph_count_of_path bottleneck_path 3
             bottleneck_path_count).
Qed.

Lemma block_layer_block_count_witness :
  ∃ y, block_layer images 64 true _bottleneck_block_v2 0 1 true "stage"
         channels_last = Ok y ∧
       main_path_count is_add (op y) = 1%nat ∧
       main_path_count is_conv (op y) = 3%nat.
Proof.
  pose proof (block_layer_img channels_last 1 (Feed "images") 64 64 3 64 0 1
                true "stage" ltac:(lia) ltac:(lia) ltac:(lia) ltac:(lia)
                ltac:(lia) eq_refl) as Hy.
  eexists. split; [exact Hy|].
  exact (proj2 block_layer_block_count images 64 true 0 1 true "stage"
           channels_last _ Hy).
Defined.
